(** * Vector Math Calculator: a shallow embedding of [vector_math_calculator.py]

    The library is a set of functions over Python lists of numbers.  Each
    function is embedded as it is written: a length check that raises
    [ValueError], then a list comprehension over [range(len(v))] whose body
    indexes the operands.  Exceptions are values of an error monad, so a
    function that raises produces no list at all.

    The numbers are kept abstract behind the interface [Number]: the
    operators and builtins the source applies to a component.  Two instances
    are given: the real numbers (exact arithmetic) and binary64 floats (what
    the interactive driver parses its operands into), the latter on top of
    the [pow] of the platform's C library, which is a parameter. *)

From Stdlib Require Import String.
From Stdlib Require Import List ZArith Bool Lia.
From Stdlib Require Import Reals Lra.
From Stdlib Require Import Floats.
Import ListNotations.

Set Implicit Arguments.

(** ** Exceptions and results *)

Inductive exn : Type :=
| ValueError (msg : string)
| ZeroDivisionError
| OverflowError
| IndexError.

Inductive result (A : Type) : Type :=
| Ok (a : A)
| Raise (e : exn).

Arguments Ok {A} a.
Arguments Raise {A} e.

Definition bind {A B : Type} (c : result A) (k : A -> result B) : result B :=
  match c with
  | Ok a => k a
  | Raise e => Raise e
  end.

Declare Scope py_scope.
Delimit Scope py_scope with py.
Notation "x <- c ;; k" := (bind c (fun x => k))
  (at level 61, c at next level, right associativity) : py_scope.
Open Scope py_scope.

(** The three messages the library raises itself. *)
Definition DimensionMismatch : exn :=
  ValueError "Vectors must have the same dimensions."%string.
Definition WrapDimensionMismatch : exn :=
  ValueError "Vector dimensions must match min_values and max_values."%string.
Definition InvalidDimension : exn :=
  ValueError "Cross product is defined only for 3-dimensional vectors."%string.
(** Raised by the [math] module outside a function's domain. *)
Definition MathDomainError : exn := ValueError "math domain error"%string.

(** ** Lists as Python uses them *)

(** [v[i]] for a non-negative index. *)
Definition getitem {A : Type} (v : list A) (i : nat) : result A :=
  match nth_error v i with
  | Some x => Ok x
  | None => Raise IndexError
  end.

(** Elements are evaluated from left to right; the first exception ends the
    evaluation. *)
Fixpoint mapM {A B : Type} (f : A -> result B) (l : list A) : result (list B) :=
  match l with
  | [] => Ok []
  | x :: l' => y <- f x ;; ys <- mapM f l' ;; Ok (y :: ys)
  end.

(** [[body(i) for i in range(n)]] *)
Definition comprehension {B : Type} (n : nat) (body : nat -> result B)
  : result (list B) :=
  mapM body (seq 0 n).

(** [len(v1) != len(v2)] *)
Definition len_ne {A B : Type} (v1 : list A) (v2 : list B) : bool :=
  negb (Nat.eqb (length v1) (length v2)).

(** ** The numbers *)

(** What the source asks of a component.  An [int] literal of the source
    enters the arithmetic through [of_int]; [round], [math.floor] and
    [math.ceil] return a Python [int]. *)
Class Number (T : Type) : Type := {
  of_int : Z -> T;
  nadd : T -> T -> T;
  nsub : T -> T -> T;
  nmul : T -> T -> T;
  (** the quotient, for a divisor that is not zero *)
  ndiv : T -> T -> T;
  neqb : T -> T -> bool;
  nltb : T -> T -> bool;
  nabs : T -> T;
  (** the square root, for an argument that is not negative *)
  nsqrt : T -> T;
  (** [x ** 2] *)
  npow2 : T -> result T;
  nround : T -> result Z;
  nfloor : T -> result Z;
  nceil : T -> result Z
}.

(** [math.sin], [math.cos], [math.tan] *)
Class Trig (T : Type) : Type := {
  nsin : T -> result T;
  ncos : T -> result T;
  ntan : T -> result T
}.

Declare Scope num_scope.
Delimit Scope num_scope with num.
Notation "x + y" := (nadd x y) : num_scope.
Notation "x - y" := (nsub x y) : num_scope.
Notation "x * y" := (nmul x y) : num_scope.
Notation "x <? y" := (nltb x y) : num_scope.
Notation "x =? y" := (neqb x y) : num_scope.

Section VectorOps.

Context {T : Type} {num : Number T}.
Local Open Scope num_scope.

Notation "0" := (of_int 0%Z) : num_scope.
Notation "1" := (of_int 1%Z) : num_scope.
Notation "2" := (of_int 2%Z) : num_scope.
Notation "-1" := (of_int (-1)%Z) : num_scope.

(** [x / y]: Python raises [ZeroDivisionError] when [y == 0], for [int] and
    [float] alike. *)
Definition truediv (x y : T) : result T :=
  if y =? 0 then Raise ZeroDivisionError else Ok (ndiv x y).

(** [math.sqrt(x)] *)
Definition math_sqrt (x : T) : result T :=
  if x <? 0 then Raise MathDomainError else Ok (nsqrt x).

(** [min(a, b)] keeps [a] unless [b < a]; [max(a, b)] keeps [a] unless
    [b > a]. *)
Definition py_min (a b : T) : T := if b <? a then b else a.
Definition py_max (a b : T) : T := if a <? b then b else a.

(** [sum(xs)]: the accumulator starts at the [int] 0. *)
Definition py_sum (xs : list T) : T := fold_left nadd xs 0.

(** *** The operations, in the order of the source *)

Definition vector_addition (v1 v2 : list T) : result (list T) :=
  if len_ne v1 v2 then Raise DimensionMismatch
  else comprehension (length v1)
         (fun i => a <- getitem v1 i ;; b <- getitem v2 i ;; Ok (a + b)).

Definition vector_subtraction (v1 v2 : list T) : result (list T) :=
  if len_ne v1 v2 then Raise DimensionMismatch
  else comprehension (length v1)
         (fun i => a <- getitem v1 i ;; b <- getitem v2 i ;; Ok (a - b)).

Definition scalar_multiplication (v : list T) (scalar : T) : result (list T) :=
  comprehension (length v) (fun i => a <- getitem v i ;; Ok (scalar * a)).

Definition dot_product (v1 v2 : list T) : result T :=
  if len_ne v1 v2 then Raise DimensionMismatch
  else
    ps <- comprehension (length v1)
            (fun i => a <- getitem v1 i ;; b <- getitem v2 i ;; Ok (a * b)) ;;
    Ok (py_sum ps).

Definition cross_product (v1 v2 : list T) : result (list T) :=
  if negb (Nat.eqb (length v1) 3) || negb (Nat.eqb (length v2) 3)
  then Raise InvalidDimension
  else
    a1 <- getitem v1 1 ;; b2 <- getitem v2 2 ;;
    a2 <- getitem v1 2 ;; b1 <- getitem v2 1 ;;
    a2' <- getitem v1 2 ;; b0 <- getitem v2 0 ;;
    a0 <- getitem v1 0 ;; b2' <- getitem v2 2 ;;
    a0' <- getitem v1 0 ;; b1' <- getitem v2 1 ;;
    a1' <- getitem v1 1 ;; b0' <- getitem v2 0 ;;
    Ok [ a1 * b2 - a2 * b1;
         a2' * b0 - a0 * b2';
         a0' * b1' - a1' * b0' ].

Definition vector_projection (v1 v2 : list T) : result (list T) :=
  if len_ne v1 v2 then Raise DimensionMismatch
  else
    dot_v1v2 <- dot_product v1 v2 ;;
    mag_v2_squared <- dot_product v2 v2 ;;
    q <- truediv dot_v1v2 mag_v2_squared ;;
    scalar_multiplication v2 q.

Definition vector_reflection (v normal : list T) : result (list T) :=
  if len_ne v normal then Raise DimensionMismatch
  else
    d <- dot_product v normal ;;
    m <- dot_product normal normal ;;
    scalar <- truediv (2 * d) m ;;
    sn <- scalar_multiplication normal scalar ;;
    vector_subtraction v sn.

Definition vector_refraction (v normal : list T) (eta : T) : result (list T) :=
  if len_ne v normal then Raise DimensionMismatch
  else
    dot_vn <- dot_product v normal ;;
    let k := 1 - eta * eta * (1 - dot_vn * dot_vn) in
    if k <? 0 then Ok (repeat 0 (length v))
    else
      ev <- scalar_multiplication v eta ;;
      rt <- math_sqrt k ;;
      sn <- scalar_multiplication normal (eta * dot_vn + rt) ;;
      vector_subtraction ev sn.

Definition vector_face_forward (n i ng : list T) : result (list T) :=
  dot_ni <- dot_product n i ;;
  if dot_ni <? 0 then Ok i else scalar_multiplication i (-1).

Definition vector_scale (v : list T) (s : T) : result (list T) :=
  comprehension (length v) (fun i => a <- getitem v i ;; Ok (a * s)).

Definition vector_distance (v1 v2 : list T) : result T :=
  if len_ne v1 v2 then Raise DimensionMismatch
  else
    sq <- comprehension (length v1)
            (fun i => a <- getitem v1 i ;; b <- getitem v2 i ;; npow2 (a - b)) ;;
    math_sqrt (py_sum sq).

Definition vector_length (v : list T) : result T :=
  sq <- comprehension (length v) (fun i => a <- getitem v i ;; npow2 a) ;;
  math_sqrt (py_sum sq).

Definition vector_absolute (v : list T) : result (list T) :=
  comprehension (length v) (fun i => a <- getitem v i ;; Ok (nabs a)).

Definition vector_minimum (v1 v2 : list T) : result (list T) :=
  if len_ne v1 v2 then Raise DimensionMismatch
  else comprehension (length v1)
         (fun i => a <- getitem v1 i ;; b <- getitem v2 i ;; Ok (py_min a b)).

Definition vector_maximum (v1 v2 : list T) : result (list T) :=
  if len_ne v1 v2 then Raise DimensionMismatch
  else comprehension (length v1)
         (fun i => a <- getitem v1 i ;; b <- getitem v2 i ;; Ok (py_max a b)).

Definition vector_floor (v : list T) : result (list Z) :=
  comprehension (length v) (fun i => a <- getitem v i ;; nfloor a).

Definition vector_ceil (v : list T) : result (list Z) :=
  comprehension (length v) (fun i => a <- getitem v i ;; nceil a).

Definition vector_snap (v : list T) (increment : T) : result (list T) :=
  comprehension (length v)
    (fun i => a <- getitem v i ;;
              q <- truediv a increment ;;
              r <- nround q ;;
              Ok (of_int r * increment)).

Definition vector_wrap (v min_values max_values : list T) : result (list T) :=
  if len_ne v min_values || len_ne v max_values
  then Raise WrapDimensionMismatch
  else comprehension (length v)
         (fun i => a <- getitem v i ;;
                   lo <- getitem min_values i ;;
                   hi <- getitem max_values i ;;
                   Ok (py_min (py_max a lo) hi)).

Context {trig : Trig T}.

Definition vector_sin (v : list T) : result (list T) :=
  comprehension (length v) (fun i => a <- getitem v i ;; nsin a).

Definition vector_cos (v : list T) : result (list T) :=
  comprehension (length v) (fun i => a <- getitem v i ;; ncos a).

Definition vector_tan (v : list T) : result (list T) :=
  comprehension (length v) (fun i => a <- getitem v i ;; ntan a).

End VectorOps.

(** ** Exact arithmetic: the real numbers *)

Module RealArith.

Local Open Scope R_scope.

Definition Reqb (x y : R) : bool := if Req_dec_T x y then true else false.
Definition Rltb (x y : R) : bool := if Rlt_dec x y then true else false.

(** [math.floor] and [math.ceil] *)
Definition Rfloor (x : R) : Z := Int_part x.
Definition Rceil (x : R) : Z := (- Int_part (- x))%Z.

(** [round(x)]: to the nearest integer, a tie going to the even one. *)
Definition Rround (x : R) : Z :=
  let f := Int_part x in
  let d := frac_part x in
  if Rlt_dec d (1 / 2) then f
  else if Rlt_dec (1 / 2) d then (f + 1)%Z
  else if Z.even f then f else (f + 1)%Z.

#[export] Instance R_number : Number R := {|
  of_int := IZR;
  nadd := Rplus;
  nsub := Rminus;
  nmul := Rmult;
  ndiv := Rdiv;
  neqb := Reqb;
  nltb := Rltb;
  nabs := Rabs;
  nsqrt := R_sqrt.sqrt;
  npow2 := fun x => Ok (x * x);
  nround := fun x => Ok (Rround x);
  nfloor := fun x => Ok (Rfloor x);
  nceil := fun x => Ok (Rceil x)
|}.

#[export] Instance R_trig : Trig R := {|
  nsin := fun x => Ok (sin x);
  ncos := fun x => Ok (cos x);
  ntan := fun x => Ok (tan x)
|}.

End RealArith.

(** ** Python's [float]: binary64 *)

Module FloatArith.

Local Open Scope float_scope.

(** [float(z)] for an [int] within range, rounded to nearest even. *)
Definition float_of_int (z : Z) : float :=
  SF2Prim (binary_normalize prec emax z 0%Z false).

Inductive rounding : Type := Down | Up | HalfEven.

(** The integer next to [m / 2^n] in the direction of [mode], for the
    magnitude of a float with sign [s]. *)
Definition round_magnitude (mode : rounding) (s : bool) (m : positive) (n : Z) : Z :=
  let d := Z.pow 2 n in
  let q := Z.div (Zpos m) d in
  let r := Z.modulo (Zpos m) d in
  let away := if Z.eqb r 0 then q else (q + 1)%Z in
  match mode with
  | Down => if s then away else q
  | Up => if s then q else away
  | HalfEven =>
      if Z.ltb (2 * r) d then q
      else if Z.ltb d (2 * r) then (q + 1)%Z
      else if Z.even q then q else (q + 1)%Z
  end.

(** [math.floor], [math.ceil] and [round] of a float: a NaN is a
    [ValueError], an infinity an [OverflowError]. *)
Definition float_to_int (mode : rounding) (x : float) : result Z :=
  match Prim2SF x with
  | S754_nan => Raise (ValueError "cannot convert float NaN to integer"%string)
  | S754_infinity _ => Raise OverflowError
  | S754_zero _ => Ok 0%Z
  | S754_finite s m e =>
      let n := if Z.leb 0 e then (Zpos m * Z.pow 2 e)%Z
               else round_magnitude mode s m (- e) in
      Ok (if s then (- n)%Z else n)
  end.

Section Platform.

(** [pow(x, 2.0)] of the platform's C library, for a finite [x > 0] other
    than 1.  The library is not part of the source and its result is not
    always the correctly rounded square, so it is a parameter here. *)
Variable libm_pow2 : float -> float.

(** [x ** 2] as [float.__pow__] computes it: a NaN, an infinity, a zero and
    1 are answered without the C library; otherwise [pow] is called on the
    absolute value and a result that overflowed is an [OverflowError]. *)
Definition float_pow2 (x : float) : result float :=
  if is_nan x then Ok x
  else if is_infinity x then Ok infinity
  else if x =? 0 then Ok 0
  else if abs x =? 1 then Ok 1
  else let r := libm_pow2 (abs x) in
       if is_infinity r then Raise OverflowError else Ok r.

(** Binary64 arithmetic on a platform with that C library. *)
Definition binary64 : Number float := {|
  of_int := float_of_int;
  nadd := PrimFloat.add;
  nsub := PrimFloat.sub;
  nmul := PrimFloat.mul;
  ndiv := PrimFloat.div;
  neqb := PrimFloat.eqb;
  nltb := PrimFloat.ltb;
  nabs := PrimFloat.abs;
  nsqrt := PrimFloat.sqrt;
  npow2 := float_pow2;
  nround := float_to_int HalfEven;
  nfloor := float_to_int Down;
  nceil := float_to_int Up
|}.

End Platform.

(** A C library whose [pow] is correctly rounded returns the rounded
    product. *)
Definition pow2_correctly_rounded (x : float) : float := x * x.

(** The platform the operations are run on below. *)
#[export] Instance float_number : Number float :=
  binary64 pow2_correctly_rounded.

End FloatArith.

(** ** The operations as formulas

    What the specification's table writes for each result, over whole
    lists. *)

Section Formulas.

Context {T : Type} {num : Number T}.

Definition zip_with {A B C : Type} (f : A -> B -> C) (l1 : list A) (l2 : list B)
  : list C :=
  map (fun p => f (fst p) (snd p)) (combine l1 l2).

(** elementwise [v1 + v2], [v1 - v2] and [s * v] *)
Definition vadd (v1 v2 : list T) : list T := zip_with nadd v1 v2.
Definition vsub (v1 v2 : list T) : list T := zip_with nsub v1 v2.
Definition vscale (s : T) (v : list T) : list T := map (nmul s) v.

(** [dot(v1, v2)]: the sum of the products *)
Definition dot (v1 v2 : list T) : T := py_sum (zip_with nmul v1 v2).

(** the zero vector of a given length *)
Definition vzero (n : nat) : list T := repeat (of_int 0%Z) n.

(** elementwise [clamp(v, lo, hi)] *)
Definition clamp (a lo hi : T) : T := py_min (py_max a lo) hi.
Definition vclamp (v lo hi : list T) : list T :=
  zip_with (fun a b => clamp a (fst b) (snd b)) v (combine lo hi).

End Formulas.

(** [c] returns a list as long as [v]. *)
Definition returns_same_length {A B : Type} (v : list A) (c : result (list B))
  : Prop :=
  exists r, c = Ok r /\ length r = length v.

(** Whatever list [c] returns is as long as [v]. *)
Definition keeps_length {A B : Type} (v : list A) (c : result (list B)) : Prop :=
  forall r, c = Ok r -> length r = length v.

(** ** The driver's printer *)

(** A [for] loop over a list of indices, threading what has been written so
    far; an exception in the body ends the loop. *)
Fixpoint for_each {S : Type} (body : S -> nat -> result S) (l : list nat) (s : S)
  : result S :=
  match l with
  | [] => Ok s
  | i :: l' => s' <- body s i ;; for_each body l' s'
  end.

(** The end of line [print] appends. *)
Definition newline : string := String (Ascii.ascii_of_nat 10) EmptyString.

Section Printer.

Context {T : Type}.

(** The text an f-string writes for a component, [f"{x}"]. *)
Variable fmt : T -> string.

(** [print_vector(v)]: the text written to the standard output.  The test
    [i < len(v) - 1] is on Python integers, so [len(v) - 1] is [-1] for the
    empty list. *)
Definition print_vector (v : list T) : result string :=
  out <- for_each
           (fun out i =>
              if (Z.of_nat i <? Z.of_nat (length v) - 1)%Z
              then x <- getitem v i ;; Ok (out ++ (fmt x ++ ", "))%string
              else x <- getitem v i ;; Ok (out ++ fmt x)%string)
           (seq 0 (length v)) "["%string ;;
  Ok (out ++ ("]" ++ newline))%string.

End Printer.

(** * Properties *)

(** ** The error monad and comprehensions *)

Section MapM.

Context {A B : Type}.

Lemma len_ne_false (v1 : list A) (v2 : list B) :
  length v1 = length v2 -> len_ne v1 v2 = false.
Proof.
  intros E. unfold len_ne. rewrite E, Nat.eqb_refl. reflexivity.
Qed.

Lemma len_ne_true (v1 : list A) (v2 : list B) :
  length v1 <> length v2 -> len_ne v1 v2 = true.
Proof.
  intros N. unfold len_ne.
  destruct (Nat.eqb_spec (length v1) (length v2)); [contradiction | reflexivity].
Qed.

Lemma mapM_pure (g : A -> B) (l : list A) :
  mapM (fun x => Ok (g x)) l = Ok (map g l).
Proof.
  induction l as [| x l IH]; simpl; [reflexivity |].
  rewrite IH. reflexivity.
Qed.

Lemma mapM_ext (f g : A -> result B) (l : list A) :
  (forall x, f x = g x) -> mapM f l = mapM g l.
Proof.
  intros E. induction l as [| x l IH]; simpl; [reflexivity |].
  rewrite E, IH. reflexivity.
Qed.

Lemma mapM_length (f : A -> result B) (l : list A) (r : list B) :
  mapM f l = Ok r -> length r = length l.
Proof.
  revert r. induction l as [| x l IH]; simpl; intros r E.
  - injection E as <-. reflexivity.
  - destruct (f x) as [y | e]; simpl in E; [| discriminate].
    destruct (mapM f l) as [ys | e]; simpl in E; [| discriminate].
    injection E as <-. simpl. f_equal. apply IH. reflexivity.
Qed.

Lemma mapM_total (f : A -> result B) (l : list A) :
  Forall (fun x => exists y, f x = Ok y) l -> exists r, mapM f l = Ok r.
Proof.
  induction 1 as [| x l [y Hy] _ [ys IH]]; simpl.
  - eexists. reflexivity.
  - rewrite Hy, IH. simpl. eexists. reflexivity.
Qed.

Lemma mapM_seq_shift (f : nat -> result B) (a n : nat) :
  mapM f (seq (S a) n) = mapM (fun i => f (S i)) (seq a n).
Proof.
  revert a. induction n as [| n IH]; intros a; simpl; [reflexivity |].
  rewrite IH. reflexivity.
Qed.

Lemma comprehension_S (n : nat) (body : nat -> result B) :
  comprehension (S n) body =
  (y <- body 0 ;; ys <- comprehension n (fun i => body (S i)) ;; Ok (y :: ys)).
Proof.
  unfold comprehension. simpl. rewrite mapM_seq_shift. reflexivity.
Qed.

End MapM.

Section Comprehensions.

Context {A B C D : Type}.

(** A comprehension that indexes one list over its own range visits its
    elements in order and never raises [IndexError]. *)
Lemma comprehension_getitem (f : A -> result B) (v : list A) :
  comprehension (length v) (fun i => a <- getitem v i ;; f a) = mapM f v.
Proof.
  induction v as [| x v IH]; [reflexivity |].
  simpl length. rewrite comprehension_S. simpl.
  destruct (f x) as [y | e]; simpl; [| reflexivity].
  unfold getitem in *. simpl. rewrite IH. reflexivity.
Qed.

(** The same for two lists of one length, ... *)
Lemma comprehension_getitem2 (f : A -> B -> result C) (v1 : list A) (v2 : list B) :
  length v1 = length v2 ->
  comprehension (length v1)
    (fun i => a <- getitem v1 i ;; b <- getitem v2 i ;; f a b) =
  mapM (fun p => f (fst p) (snd p)) (combine v1 v2).
Proof.
  revert v2. induction v1 as [| x v1 IH]; intros [| y v2] E;
    try discriminate; [reflexivity |].
  simpl length. rewrite comprehension_S. simpl.
  destruct (f x y) as [z | e]; simpl; [| reflexivity].
  unfold getitem in *. simpl. rewrite IH by (simpl in E; lia). reflexivity.
Qed.

(** ... and for three. *)
Lemma comprehension_getitem3 (f : A -> B -> C -> result D)
      (v1 : list A) (v2 : list B) (v3 : list C) :
  length v1 = length v2 -> length v1 = length v3 ->
  comprehension (length v1)
    (fun i => a <- getitem v1 i ;; b <- getitem v2 i ;; c <- getitem v3 i ;;
              f a b c) =
  mapM (fun p => f (fst p) (fst (snd p)) (snd (snd p)))
       (combine v1 (combine v2 v3)).
Proof.
  revert v2 v3. induction v1 as [| x v1 IH]; intros [| y v2] [| z v3] E2 E3;
    try discriminate; [reflexivity |].
  simpl length. rewrite comprehension_S. simpl.
  destruct (f x y z) as [w | e]; simpl; [| reflexivity].
  unfold getitem in *. simpl.
  rewrite IH by (simpl in E2, E3; lia). reflexivity.
Qed.

Lemma zip_with_length (f : A -> B -> C) (v1 : list A) (v2 : list B) :
  length v1 = length v2 -> length (zip_with f v1 v2) = length v1.
Proof.
  intros E. unfold zip_with. rewrite length_map, length_combine. lia.
Qed.

Lemma zip_with_nth (f : A -> B -> C) (v1 : list A) (v2 : list B)
      (i : nat) (a : A) (b : B) (c : C) :
  length v1 = length v2 -> i < length v1 ->
  nth i (zip_with f v1 v2) c = f (nth i v1 a) (nth i v2 b).
Proof.
  intros E Hi. unfold zip_with.
  rewrite nth_indep with (d' := f (fst (a, b)) (snd (a, b)))
    by (rewrite length_map, length_combine; lia).
  rewrite (map_nth (fun p => f (fst p) (snd p))).
  rewrite combine_nth by assumption. reflexivity.
Qed.

End Comprehensions.

(** ** Each operation computes its formula *)

Section Operations.

Context {T : Type} {num : Number T}.
Local Open Scope num_scope.

Notation "0" := (of_int 0%Z) : num_scope.
Notation "1" := (of_int 1%Z) : num_scope.
Notation "-1" := (of_int (-1)%Z) : num_scope.

Lemma vector_addition_eq (v1 v2 : list T) :
  length v1 = length v2 -> vector_addition v1 v2 = Ok (vadd v1 v2).
Proof.
  intros E. unfold vector_addition. rewrite (len_ne_false _ _ E).
  rewrite (comprehension_getitem2 (fun a b => Ok (a + b))) by assumption.
  apply mapM_pure.
Qed.

Lemma vector_subtraction_eq (v1 v2 : list T) :
  length v1 = length v2 -> vector_subtraction v1 v2 = Ok (vsub v1 v2).
Proof.
  intros E. unfold vector_subtraction. rewrite (len_ne_false _ _ E).
  rewrite (comprehension_getitem2 (fun a b => Ok (a - b))) by assumption.
  apply mapM_pure.
Qed.

Lemma scalar_multiplication_eq (v : list T) (s : T) :
  scalar_multiplication v s = Ok (vscale s v).
Proof.
  unfold scalar_multiplication.
  rewrite (comprehension_getitem (fun a => Ok (s * a))). apply mapM_pure.
Qed.

Lemma vector_scale_eq (v : list T) (s : T) :
  vector_scale v s = Ok (map (fun a => a * s) v).
Proof.
  unfold vector_scale.
  rewrite (comprehension_getitem (fun a => Ok (a * s))). apply mapM_pure.
Qed.

Lemma dot_product_eq (v1 v2 : list T) :
  length v1 = length v2 -> dot_product v1 v2 = Ok (dot v1 v2).
Proof.
  intros E. unfold dot_product. rewrite (len_ne_false _ _ E).
  rewrite (comprehension_getitem2 (fun a b => Ok (a * b))) by assumption.
  rewrite mapM_pure. reflexivity.
Qed.

Lemma cross_product_eq (a0 a1 a2 b0 b1 b2 : T) :
  cross_product [a0; a1; a2] [b0; b1; b2] =
  Ok [a1 * b2 - a2 * b1; a2 * b0 - a0 * b2; a0 * b1 - a1 * b0].
Proof. reflexivity. Qed.

Lemma cross_product_invalid (v1 v2 : list T) :
  length v1 <> 3 \/ length v2 <> 3 ->
  cross_product v1 v2 = Raise InvalidDimension.
Proof.
  intros N. unfold cross_product.
  destruct (Nat.eqb_spec (length v1) 3), (Nat.eqb_spec (length v2) 3);
    simpl; try reflexivity.
  destruct N; contradiction.
Qed.

Lemma length_3 {A : Type} (v : list A) :
  length v = 3 -> exists x y z, v = [x; y; z].
Proof.
  destruct v as [| x [| y [| z [| w v]]]]; try discriminate.
  intros _. exists x, y, z. reflexivity.
Qed.

Lemma vscale_length (s : T) (v : list T) : length (vscale s v) = length v.
Proof. apply length_map. Qed.

Lemma vzero_length (n : nat) : length (vzero (T := T) n) = n.
Proof. apply repeat_length. Qed.

Lemma math_sqrt_defined (x : T) : (x <? 0) = false -> math_sqrt x = Ok (nsqrt x).
Proof. intros E. unfold math_sqrt. rewrite E. reflexivity. Qed.

(** Refraction returns in both of its branches. *)
Lemma vector_refraction_returns (v normal : list T) (eta : T) :
  length v = length normal ->
  returns_same_length v (vector_refraction v normal eta).
Proof.
  intros E. unfold vector_refraction, returns_same_length.
  rewrite (len_ne_false _ _ E), (dot_product_eq _ _ E). simpl.
  destruct (_ <? 0) eqn:Hk.
  - eexists. split; [reflexivity | apply repeat_length].
  - rewrite scalar_multiplication_eq. simpl.
    rewrite (math_sqrt_defined _ Hk). simpl.
    rewrite scalar_multiplication_eq. simpl.
    rewrite vector_subtraction_eq by (rewrite !vscale_length; exact E).
    eexists. split; [reflexivity |].
    unfold vsub. rewrite zip_with_length; rewrite !vscale_length; auto.
Qed.

Lemma vector_face_forward_returns (n i ng : list T) :
  length n = length i ->
  returns_same_length i (vector_face_forward n i ng).
Proof.
  intros E. unfold vector_face_forward, returns_same_length.
  rewrite (dot_product_eq _ _ E). simpl.
  destruct (dot n i <? 0).
  - eexists. split; reflexivity.
  - rewrite scalar_multiplication_eq. eexists.
    split; [reflexivity | apply vscale_length].
Qed.

(** Scalar multiplication and scale differ in the order of the factors
    only. *)
Lemma scale_commutes (v : list T) (s : T) :
  (forall x y : T, x * y = y * x) ->
  scalar_multiplication v s = vector_scale v s.
Proof.
  intros C. rewrite scalar_multiplication_eq, vector_scale_eq.
  f_equal. apply map_ext. intros a. apply C.
Qed.

Lemma vector_minimum_eq (v1 v2 : list T) :
  length v1 = length v2 -> vector_minimum v1 v2 = Ok (zip_with py_min v1 v2).
Proof.
  intros E. unfold vector_minimum. rewrite (len_ne_false _ _ E).
  rewrite (comprehension_getitem2 (fun a b => Ok (py_min a b))) by assumption.
  apply mapM_pure.
Qed.

Lemma vector_maximum_eq (v1 v2 : list T) :
  length v1 = length v2 -> vector_maximum v1 v2 = Ok (zip_with py_max v1 v2).
Proof.
  intros E. unfold vector_maximum. rewrite (len_ne_false _ _ E).
  rewrite (comprehension_getitem2 (fun a b => Ok (py_max a b))) by assumption.
  apply mapM_pure.
Qed.

Lemma vector_absolute_eq (v : list T) : vector_absolute v = Ok (map nabs v).
Proof.
  unfold vector_absolute.
  rewrite (comprehension_getitem (fun a => Ok (nabs a))). apply mapM_pure.
Qed.

Lemma vector_wrap_eq (v lo hi : list T) :
  length v = length lo -> length v = length hi ->
  vector_wrap v lo hi = Ok (vclamp v lo hi).
Proof.
  intros E1 E2. unfold vector_wrap.
  rewrite (len_ne_false _ _ E1), (len_ne_false _ _ E2). simpl.
  rewrite (comprehension_getitem3 (fun a l h => Ok (py_min (py_max a l) h)))
    by assumption.
  apply mapM_pure.
Qed.

Lemma vclamp_length (v lo hi : list T) :
  length v = length lo -> length v = length hi ->
  length (vclamp v lo hi) = length v.
Proof.
  intros E1 E2. unfold vclamp. apply zip_with_length.
  rewrite length_combine. lia.
Qed.

Lemma vector_snap_eq (v : list T) (increment : T) :
  vector_snap v increment =
  mapM (fun a => q <- truediv a increment ;; r <- nround q ;;
                 Ok (of_int r * increment)) v.
Proof.
  unfold vector_snap.
  apply (comprehension_getitem
           (fun a => q <- truediv a increment ;; r <- nround q ;;
                     Ok (of_int r * increment))).
Qed.

End Operations.

(** ** Claims that hold in every number system *)

Section Claims.

Context {T : Type} {num : Number T}.
Local Open Scope num_scope.

Notation "0" := (of_int 0%Z) : num_scope.
Notation "1" := (of_int 1%Z) : num_scope.
Notation "2" := (of_int 2%Z) : num_scope.
Notation "-1" := (of_int (-1)%Z) : num_scope.

(** C1. For vectors [v] and [normal] of one length and a scalar [eta],
    refraction computes [k = 1 - eta*eta*(1 - dot(v,normal)^2)] once; when
    [k < 0] it returns the zero vector of the length of [v], and otherwise
    [eta*v - (eta*dot(v,normal) + sqrt k)*normal].  In particular the square
    root is never taken outside its domain and no index is out of range. *)
Theorem vector_refraction_formula (v normal : list T) (eta : T) :
  length v = length normal ->
  let d := dot v normal in
  let k := 1 - eta * eta * (1 - d * d) in
  vector_refraction v normal eta =
  Ok (if k <? 0 then vzero (length v)
      else vsub (vscale eta v) (vscale (eta * d + nsqrt k) normal)).
Proof.
  intros E d k. unfold vector_refraction.
  rewrite (len_ne_false _ _ E), (dot_product_eq _ _ E). simpl.
  fold d. fold k. destruct (k <? 0) eqn:Hk; [reflexivity |].
  rewrite scalar_multiplication_eq. simpl.
  rewrite (math_sqrt_defined _ Hk). simpl.
  rewrite scalar_multiplication_eq. simpl.
  apply vector_subtraction_eq. rewrite !vscale_length. exact E.
Qed.

(** C2, as the code has it.  Snap does not look at [increment] before it
    divides.  With [increment == 0] the division of the first component
    raises Python's [ZeroDivisionError], and a vector without components is
    returned as it is, the division never being reached. *)
Theorem vector_snap_zero_increment (v : list T) (increment : T) :
  (increment =? 0) = true ->
  vector_snap v increment =
  match v with
  | [] => Ok []
  | _ :: _ => Raise ZeroDivisionError
  end.
Proof.
  intros Z. rewrite vector_snap_eq. destruct v as [| a v]; [reflexivity |].
  simpl. unfold truediv. rewrite Z. reflexivity.
Qed.

(** C3. Operands of differing lengths make every operation that asks for
    equal lengths raise its dimension error; an exception carries no list,
    so nothing truncated or padded is returned.  Wrap raises when [v] differs
    in length from either bound, hence also when the bounds differ from each
    other. *)
Theorem mismatched_lengths_raise (v1 v2 : list T) (eta : T) :
  length v1 <> length v2 ->
  vector_addition v1 v2 = Raise DimensionMismatch /\
  vector_subtraction v1 v2 = Raise DimensionMismatch /\
  dot_product v1 v2 = Raise DimensionMismatch /\
  vector_projection v1 v2 = Raise DimensionMismatch /\
  vector_reflection v1 v2 = Raise DimensionMismatch /\
  vector_refraction v1 v2 eta = Raise DimensionMismatch /\
  vector_distance v1 v2 = Raise DimensionMismatch /\
  vector_minimum v1 v2 = Raise DimensionMismatch /\
  vector_maximum v1 v2 = Raise DimensionMismatch /\
  (forall w, vector_wrap v1 v2 w = Raise WrapDimensionMismatch) /\
  (forall w, vector_wrap v1 w v2 = Raise WrapDimensionMismatch) /\
  (forall w, vector_wrap w v1 v2 = Raise WrapDimensionMismatch).
Proof.
  intros N. pose proof (len_ne_true _ _ N) as L.
  unfold vector_addition, vector_subtraction, dot_product, vector_projection,
    vector_reflection, vector_refraction, vector_distance, vector_minimum,
    vector_maximum, vector_wrap.
  rewrite !L. simpl.
  repeat (split; [reflexivity |]). split; intros w.
  - rewrite orb_true_r. reflexivity.
  - destruct (Nat.eq_dec (length w) (length v1)) as [E | D].
    + rewrite (len_ne_false _ _ E), (len_ne_true w v2) by congruence.
      reflexivity.
    + rewrite (len_ne_true _ _ D). reflexivity.
Qed.

(** C4. For [n] and [i] of one length, face-forward returns [i] itself when
    [dot(n,i) < 0] and [-1 * i] otherwise; [ng] does not occur in the
    result. *)
Theorem vector_face_forward_formula (n i ng : list T) :
  length n = length i ->
  vector_face_forward n i ng =
  Ok (if dot n i <? 0 then i else vscale (-1) i).
Proof.
  intros E. unfold vector_face_forward. rewrite (dot_product_eq _ _ E). simpl.
  destruct (dot n i <? 0); [reflexivity | apply scalar_multiplication_eq].
Qed.

(** C9. Face-forward never looks at [ng]: for [n] and [i] of one length the
    call returns, and returns the same list for any two third arguments,
    whatever their lengths. *)
Theorem vector_face_forward_ignores_ng (n i ng ng' : list T) :
  length n = length i ->
  exists r, vector_face_forward n i ng = Ok r /\
            vector_face_forward n i ng' = Ok r.
Proof.
  intros E. unfold vector_face_forward.
  rewrite (dot_product_eq _ _ E). simpl.
  destruct (dot n i <? 0).
  - exists i. split; reflexivity.
  - exists (vscale (-1) i). split; apply scalar_multiplication_eq.
Qed.

End Claims.

(** ** Lengths of the results *)

Section Lengths.

Context {T : Type} {num : Number T} {trig : Trig T}.
Local Open Scope num_scope.

Notation "0" := (of_int 0%Z) : num_scope.
Notation "2" := (of_int 2%Z) : num_scope.

Lemma returned {A B : Type} (v : list A) (c : result (list B)) (r : list B) :
  c = Ok r -> length r = length v -> returns_same_length v c.
Proof. intros E L. exists r. split; assumption. Qed.

Lemma len_ne_inv {A B : Type} (v1 : list A) (v2 : list B) :
  len_ne v1 v2 = false -> length v1 = length v2.
Proof.
  unfold len_ne. destruct (Nat.eqb_spec (length v1) (length v2)); [trivial |].
  discriminate.
Qed.

Lemma comprehension_keeps_length {A B : Type} (f : A -> result B) (v : list A) :
  keeps_length v (comprehension (length v) (fun i => a <- getitem v i ;; f a)).
Proof.
  intros r. rewrite comprehension_getitem. apply mapM_length.
Qed.

Lemma vector_projection_eq (v1 v2 : list T) :
  length v1 = length v2 -> (dot v2 v2 =? 0) = false ->
  vector_projection v1 v2 = Ok (vscale (ndiv (dot v1 v2) (dot v2 v2)) v2).
Proof.
  intros E NZ. unfold vector_projection.
  rewrite (len_ne_false _ _ E), (dot_product_eq _ _ E).
  rewrite (dot_product_eq v2 v2 eq_refl). simpl.
  unfold truediv. rewrite NZ. simpl. apply scalar_multiplication_eq.
Qed.

Lemma vector_projection_keeps_length (v1 v2 : list T) :
  keeps_length v1 (vector_projection v1 v2).
Proof.
  intros r. unfold vector_projection.
  destruct (len_ne v1 v2) eqn:L; [discriminate |].
  apply len_ne_inv in L.
  rewrite (dot_product_eq _ _ L), (dot_product_eq v2 v2 eq_refl). simpl.
  destruct (truediv (dot v1 v2) (dot v2 v2)) as [q | e]; simpl; [| discriminate].
  rewrite scalar_multiplication_eq. intros H. injection H as <-.
  rewrite vscale_length. symmetry. exact L.
Qed.

Lemma vector_reflection_eq (v normal : list T) :
  length v = length normal -> (dot normal normal =? 0) = false ->
  vector_reflection v normal =
  Ok (vsub v (vscale (ndiv (2 * dot v normal) (dot normal normal)) normal)).
Proof.
  intros E NZ. unfold vector_reflection.
  rewrite (len_ne_false _ _ E), (dot_product_eq _ _ E).
  rewrite (dot_product_eq normal normal eq_refl). simpl.
  unfold truediv. rewrite NZ. simpl. rewrite scalar_multiplication_eq. simpl.
  apply vector_subtraction_eq. rewrite vscale_length. exact E.
Qed.

Lemma vector_reflection_keeps_length (v normal : list T) :
  keeps_length v (vector_reflection v normal).
Proof.
  intros r. unfold vector_reflection.
  destruct (len_ne v normal) eqn:L; [discriminate |].
  apply len_ne_inv in L.
  rewrite (dot_product_eq _ _ L), (dot_product_eq normal normal eq_refl). simpl.
  destruct (truediv (2 * dot v normal) (dot normal normal)) as [q | e]; simpl;
    [| discriminate].
  rewrite scalar_multiplication_eq. simpl.
  rewrite vector_subtraction_eq by (rewrite vscale_length; exact L).
  intros H. injection H as <-. apply zip_with_length.
  rewrite vscale_length. exact L.
Qed.

(** C10. Every operation that returns a vector returns one as long as its
    input: the operations that cannot fail on operands of matching lengths
    do return, refraction in both of its branches and wrap among them;
    the operations that can fail on a component (a division by zero, a
    value outside the domain of a [math] function) have that length
    whenever they return, and projection and reflection return when the
    divisor is not zero. *)
Theorem operations_preserve_length :
  (forall (v : list T) s, returns_same_length v (scalar_multiplication v s)) /\
  (forall (v : list T) s, returns_same_length v (vector_scale v s)) /\
  (forall v : list T, returns_same_length v (vector_absolute v)) /\
  (forall v1 v2 : list T, length v1 = length v2 ->
     returns_same_length v1 (vector_addition v1 v2) /\
     returns_same_length v1 (vector_subtraction v1 v2) /\
     returns_same_length v1 (vector_minimum v1 v2) /\
     returns_same_length v1 (vector_maximum v1 v2)) /\
  (forall (v normal : list T) eta, length v = length normal ->
     returns_same_length v (vector_refraction v normal eta)) /\
  (forall n i ng : list T, length n = length i ->
     returns_same_length i (vector_face_forward n i ng)) /\
  (forall v lo hi : list T, length v = length lo -> length v = length hi ->
     returns_same_length v (vector_wrap v lo hi)) /\
  (forall v1 v2 : list T, length v1 = 3 -> length v2 = 3 ->
     returns_same_length v1 (cross_product v1 v2)) /\
  (forall v1 v2 : list T,
     keeps_length v1 (vector_projection v1 v2) /\
     (length v1 = length v2 -> (dot v2 v2 =? 0) = false ->
      returns_same_length v1 (vector_projection v1 v2))) /\
  (forall v normal : list T,
     keeps_length v (vector_reflection v normal) /\
     (length v = length normal -> (dot normal normal =? 0) = false ->
      returns_same_length v (vector_reflection v normal))) /\
  (forall (v : list T) increment, keeps_length v (vector_snap v increment)) /\
  (forall v : list T,
     keeps_length v (vector_floor v) /\ keeps_length v (vector_ceil v) /\
     keeps_length v (vector_sin v) /\ keeps_length v (vector_cos v) /\
     keeps_length v (vector_tan v)).
Proof.
  repeat match goal with |- _ /\ _ => split end.
  - intros v s. eapply returned; [apply scalar_multiplication_eq |].
    apply vscale_length.
  - intros v s. eapply returned; [apply vector_scale_eq |]. apply length_map.
  - intros v. eapply returned; [apply vector_absolute_eq |]. apply length_map.
  - intros v1 v2 E. repeat split.
    + eapply returned; [apply vector_addition_eq, E |].
      apply zip_with_length, E.
    + eapply returned; [apply vector_subtraction_eq, E |].
      apply zip_with_length, E.
    + eapply returned; [apply vector_minimum_eq, E |].
      apply zip_with_length, E.
    + eapply returned; [apply vector_maximum_eq, E |].
      apply zip_with_length, E.
  - intros v normal eta E. apply vector_refraction_returns, E.
  - intros n i ng E. apply vector_face_forward_returns, E.
  - intros v lo hi E1 E2.
    eapply returned; [apply vector_wrap_eq; assumption |].
    apply vclamp_length; assumption.
  - intros v1 v2 E1 E2.
    destruct (length_3 _ E1) as (a0 & a1 & a2 & ->).
    destruct (length_3 _ E2) as (b0 & b1 & b2 & ->).
    eapply returned; [apply cross_product_eq | reflexivity].
  - intros v1 v2. split; [apply vector_projection_keeps_length |].
    intros E NZ. eapply returned; [apply vector_projection_eq; assumption |].
    rewrite vscale_length. symmetry. exact E.
  - intros v normal. split; [apply vector_reflection_keeps_length |].
    intros E NZ. eapply returned; [apply vector_reflection_eq; assumption |].
    apply zip_with_length. rewrite vscale_length. exact E.
  - intros v increment. apply comprehension_keeps_length.
  - intros v.
    repeat split; apply (comprehension_keeps_length _ v).
Qed.

End Lengths.

(** ** Claims of exact arithmetic *)

Section ExactArithmetic.

Import RealArith.
Local Open Scope R_scope.

Lemma Rltb_lt (x y : R) : Rltb x y = true <-> x < y.
Proof.
  unfold Rltb. destruct (Rlt_dec x y); split; intros H;
    try reflexivity; try assumption; try discriminate; contradiction.
Qed.

Lemma Reqb_eq (x y : R) : Reqb x y = true <-> x = y.
Proof.
  unfold Reqb. destruct (Req_dec_T x y); split; intros H;
    try reflexivity; try assumption; try discriminate; contradiction.
Qed.

(** The rounding functions of the real instance are the mathematical
    ones. *)
Lemma Rfloor_spec (x : R) : IZR (Rfloor x) <= x < IZR (Rfloor x) + 1.
Proof.
  unfold Rfloor. destruct (base_Int_part x). lra.
Qed.

Lemma Rceil_spec (x : R) : IZR (Rceil x) - 1 < x <= IZR (Rceil x).
Proof.
  unfold Rceil. rewrite opp_IZR. destruct (base_Int_part (- x)). lra.
Qed.

Lemma Rround_nearest (x : R) : Rabs (x - IZR (Rround x)) <= 1 / 2.
Proof.
  unfold Rround. pose proof (base_fp x) as [F0 F1].
  pose proof (Rplus_Int_part_frac_part x) as D.
  apply Rabs_le.
  destruct (Rlt_dec (frac_part x) (1 / 2));
    [| destruct (Rlt_dec (1 / 2) (frac_part x));
       [| destruct (Z.even (Int_part x))]];
    rewrite ?plus_IZR; lra.
Qed.

Lemma Rround_tie_even (x : R) :
  frac_part x = 1 / 2 -> Z.even (Rround x) = true.
Proof.
  intros H. unfold Rround. rewrite H.
  destruct (Rlt_dec (1 / 2) (1 / 2)); [lra |].
  destruct (Z.even (Int_part x)) eqn:E; [exact E |].
  rewrite Z.even_add, E. reflexivity.
Qed.

Lemma clamp_cases (a lo hi : R) :
  lo <= hi ->
  lo <= clamp a lo hi <= hi /\
  (lo <= a <= hi -> clamp a lo hi = a) /\
  (a < lo -> clamp a lo hi = lo) /\
  (hi < a -> clamp a lo hi = hi).
Proof.
  intros H. unfold clamp, py_min, py_max. simpl. unfold Rltb.
  destruct (Rlt_dec a lo); [destruct (Rlt_dec hi lo) | destruct (Rlt_dec hi a)];
    repeat split; intros; lra.
Qed.

Lemma vclamp_nth (v lo hi : list R) (i : nat) :
  length v = length lo -> length v = length hi -> (i < length v)%nat ->
  nth i (vclamp v lo hi) 0 = clamp (nth i v 0) (nth i lo 0) (nth i hi 0).
Proof.
  intros E1 E2 Hi. unfold vclamp.
  rewrite (zip_with_nth _ v (combine lo hi) 0 (0, 0))
    by (rewrite ?length_combine; lia).
  rewrite combine_nth by lia. reflexivity.
Qed.

(** Over the reals wrap is a clamp. *)
Lemma vector_wrap_clamps_real (v min_values max_values : list R) :
  length v = length min_values -> length v = length max_values ->
  (forall i, (i < length v)%nat -> nth i min_values 0 <= nth i max_values 0) ->
  exists r,
    vector_wrap v min_values max_values = Ok r /\ length r = length v /\
    forall i, (i < length v)%nat ->
      nth i min_values 0 <= nth i r 0 <= nth i max_values 0 /\
      (nth i min_values 0 <= nth i v 0 <= nth i max_values 0 ->
       nth i r 0 = nth i v 0) /\
      (nth i v 0 < nth i min_values 0 -> nth i r 0 = nth i min_values 0) /\
      (nth i max_values 0 < nth i v 0 -> nth i r 0 = nth i max_values 0).
Proof.
  intros E1 E2 B. exists (vclamp v min_values max_values).
  split; [apply vector_wrap_eq; assumption |].
  split; [apply vclamp_length; assumption |].
  intros i Hi. rewrite vclamp_nth by assumption.
  apply clamp_cases, B, Hi.
Qed.

(** Over the reals the cross product changes sign with the order of its
    operands. *)
Lemma cross_product_anticommutative_real (a b : list R) :
  (length a = 3%nat -> length b = 3%nat ->
   exists c c',
     cross_product a b = Ok c /\ cross_product b a = Ok c' /\
     scalar_multiplication c' (-1) = Ok c) /\
  (length a <> 3%nat \/ length b <> 3%nat ->
   cross_product a b = Raise InvalidDimension).
Proof.
  split; [| apply cross_product_invalid].
  intros Ea Eb.
  destruct (length_3 _ Ea) as (a0 & a1 & a2 & ->).
  destruct (length_3 _ Eb) as (b0 & b1 & b2 & ->).
  do 2 eexists. rewrite !cross_product_eq.
  split; [reflexivity |]. split; [reflexivity |].
  rewrite scalar_multiplication_eq. cbn.
  f_equal. f_equal; [| f_equal; [| f_equal]]; ring.
Qed.



(** Over the reals a division by zero is all that can stop snap. *)
Lemma vector_snap_real (v : list R) (increment : R) :
  increment <> 0 ->
  vector_snap v increment =
  Ok (map (fun a => IZR (Rround (a / increment)) * increment) v).
Proof.
  intros NZ. rewrite vector_snap_eq. rewrite <- mapM_pure.
  apply mapM_ext. intros a. unfold truediv. simpl.
  destruct (Reqb increment 0) eqn:Z; [| reflexivity].
  apply Reqb_eq in Z. contradiction.
Qed.

(** Over the reals the [math] functions are total, so the componentwise
    operations always return. *)
Lemma real_componentwise_total (v : list R) :
  vector_floor v = Ok (map Rfloor v) /\
  vector_ceil v = Ok (map Rceil v) /\
  vector_sin v = Ok (map sin v) /\
  vector_cos v = Ok (map cos v) /\
  vector_tan v = Ok (map tan v).
Proof.
  unfold vector_floor, vector_ceil, vector_sin, vector_cos, vector_tan.
  rewrite (comprehension_getitem (fun a : R => nfloor a)),
    (comprehension_getitem (fun a : R => nceil a)),
    (comprehension_getitem (fun a : R => nsin a)),
    (comprehension_getitem (fun a : R => ncos a)),
    (comprehension_getitem (fun a : R => ntan a)).
  simpl. rewrite !mapM_pure. repeat split; reflexivity.
Qed.

End ExactArithmetic.

(** ** Binary64 *)

Section Binary64.

Import FloatArith RealArith.
Local Open Scope float_scope.

Lemma SFmul_comm (x y : spec_float) : SF64mul x y = SF64mul y x.
Proof.
  destruct x as [sx | sx | | sx mx ex], y as [sy | sy | | sy my ey];
    unfold SF64mul; simpl; try reflexivity;
    rewrite (xorb_comm sx sy); try reflexivity.
  rewrite (Pos.mul_comm mx my), (Z.add_comm ex ey). reflexivity.
Qed.

(** The rounded product does not depend on the order of its factors. *)
Lemma float_mul_comm (x y : float) : x * y = y * x.
Proof.
  apply Prim2SF_inj. rewrite !mul_spec. apply SFmul_comm.
Qed.

(** C8. Scalar multiplication computes [scalar * v[i]] and scale computes
    [v[i] * s]: the same vector for every [v] and [s], over the reals and
    over binary64 floats, where the product does not depend on the order of
    its factors. *)
Theorem scalar_multiplication_is_scale :
  (forall (v : list R) (s : R), scalar_multiplication v s = vector_scale v s) /\
  (forall (v : list float) (s : float),
     scalar_multiplication v s = vector_scale v s).
Proof.
  split; intros v s; apply scale_commutes.
  - exact Rmult_comm.
  - exact float_mul_comm.
Qed.

(** The scenarios of the specification, run on floats. *)

Example addition_scenario :
  vector_addition [1; 2; 3] [4; 5; 6] = Ok [5; 7; 9].
Proof. vm_compute. reflexivity. Qed.

Example dot_scenario : dot_product [1; 0; 0] [0; 1; 0] = Ok 0.
Proof. vm_compute. reflexivity. Qed.

Example cross_scenario : cross_product [1; 0; 0] [0; 1; 0] = Ok [0; 0; 1].
Proof. vm_compute. reflexivity. Qed.

Example wrap_scenario :
  vector_wrap [5; -2; 10] [0; 0; 0] [8; 8; 8] = Ok [5; 0; 8].
Proof. vm_compute. reflexivity. Qed.

Example snap_scenario :
  vector_snap [0.75; 2.5; -0.75; 7] 0.5 = Ok [1; 2.5; -1; 7].
Proof. vm_compute. reflexivity. Qed.

Example projection_zero_vector :
  vector_projection [1; 2] [0; 0] = Raise ZeroDivisionError.
Proof. vm_compute. reflexivity. Qed.

Example reflection_zero_normal :
  vector_reflection [1; 2] [0; 0] = Raise ZeroDivisionError.
Proof. vm_compute. reflexivity. Qed.

End Binary64.

(** ** Order, negation and subtraction of binary64 floats *)

Section Binary64Order.

Local Open Scope Z_scope.

Lemma SFcompare_refl (x : spec_float) :
  x <> S754_nan -> SFcompare x x = Some Eq.
Proof.
  destruct x as [[|] | [|] | | [|] m e]; try reflexivity; try contradiction;
    intros _; cbn; rewrite Z.compare_refl, Pos.compare_cont_refl; reflexivity.
Qed.

Lemma SFcompare_antisym (x y : spec_float) :
  SFcompare y x = option_map CompOpp (SFcompare x y).
Proof.
  destruct x as [[|] | [|] | | [|] mx ex], y as [[|] | [|] | | [|] my ey];
    try reflexivity; cbn;
    rewrite (Z.compare_antisym ex ey);
    destruct (ex ?= ey); try reflexivity; cbn;
    pose proof (Pos.compare_cont_antisym mx my Eq) as A; cbn in A;
    rewrite <- A; destruct (Pos.compare_cont Eq mx my); reflexivity.
Qed.

Lemma SFcompare_nan (x y : spec_float) :
  SFcompare x y = None <-> x = S754_nan \/ y = S754_nan.
Proof.
  destruct x as [[|] | [|] | | [|] mx ex], y as [[|] | [|] | | [|] my ey];
    cbn; split; intros H; try discriminate; try (now auto);
    destruct H; discriminate.
Qed.

Ltac split_compare :=
  repeat match goal with
  | H : context [Z.compare ?a ?b] |- _ =>
      destruct (Z.compare_spec a b); cbn in H
  | H : context [Pos.compare_cont Eq ?a ?b] |- _ =>
      change (Pos.compare_cont Eq a b) with (Pos.compare a b) in H;
      destruct (Pos.compare_spec a b); cbn in H
  end.

(** There is no [a < lo <= hi < a]. *)
Lemma SFlt_le_lt_cycle (a lo hi : spec_float) :
  SFltb a lo = true -> SFleb lo hi = true -> SFltb hi a = true -> False.
Proof.
  unfold SFltb, SFleb, SFcompare.
  destruct a as [[|] | [|] | | [|] ma ea], lo as [[|] | [|] | | [|] ml el],
    hi as [[|] | [|] | | [|] mh eh]; intros H1 H2 H3;
    try discriminate H1; try discriminate H2; try discriminate H3;
    split_compare;
    try discriminate H1; try discriminate H2; try discriminate H3;
    subst; lia.
Qed.

Local Open Scope float_scope.

Lemma is_nan_spec (x : float) : is_nan x = false <-> Prim2SF x <> S754_nan.
Proof.
  unfold is_nan. rewrite eqb_spec. unfold SFeqb. split.
  - intros H N. rewrite N in H. discriminate.
  - intros N. now rewrite (SFcompare_refl N).
Qed.

Lemma float_leb_refl (x : float) : is_nan x = false -> (x <=? x) = true.
Proof.
  intros N. apply is_nan_spec in N. rewrite leb_spec. unfold SFleb.
  now rewrite (SFcompare_refl N).
Qed.

Lemma float_eqb_refl (x : float) : is_nan x = false -> (x =? x) = true.
Proof. unfold is_nan. now destruct (x =? x). Qed.

Lemma float_leb_not_nan (x y : float) :
  (x <=? y) = true -> is_nan x = false /\ is_nan y = false.
Proof.
  rewrite leb_spec, !is_nan_spec. unfold SFleb. intros H.
  split; intros N; rewrite N in H;
    [| destruct (Prim2SF x) as [[|] | [|] | | [|] ? ?]]; discriminate.
Qed.

Lemma float_ltb_false (x y : float) :
  is_nan x = false -> is_nan y = false ->
  (x <? y) = false -> (y <=? x) = true.
Proof.
  rewrite !is_nan_spec, ltb_spec, leb_spec. unfold SFltb, SFleb.
  intros Nx Ny. rewrite (SFcompare_antisym (Prim2SF x) (Prim2SF y)).
  destruct (SFcompare (Prim2SF x) (Prim2SF y)) as [[| |] |] eqn:C;
    try reflexivity; try discriminate.
  apply SFcompare_nan in C. destruct C; contradiction.
Qed.

Lemma float_leb_ltb (x y : float) : (x <=? y) = true -> (y <? x) = false.
Proof.
  rewrite ltb_spec, leb_spec. unfold SFltb, SFleb.
  rewrite (SFcompare_antisym (Prim2SF x) (Prim2SF y)).
  destruct (SFcompare (Prim2SF x) (Prim2SF y)) as [[| |] |];
    try reflexivity; discriminate.
Qed.

Lemma float_lt_le_lt_cycle (a lo hi : float) :
  (a <? lo) = true -> (lo <=? hi) = true -> (hi <? a) = true -> False.
Proof.
  rewrite !ltb_spec, leb_spec. apply SFlt_le_lt_cycle.
Qed.

Lemma prim_neg_one :
  Prim2SF (-1) = S754_finite true 4503599627370496 (-52).
Proof. vm_compute. reflexivity. Qed.

Lemma digits_shift (m : positive) :
  (Zpos (digits2_pos (4503599627370496 * m)) = Zpos (digits2_pos m) + 52)%Z.
Proof.
  cbn [Pos.mul digits2_pos]. rewrite !Pos2Z.inj_succ. lia.
Qed.

(** The product of -1 and a float is rounded to the opposite of the float:
    the mantissa is the float's own, shifted by the 52 zeros of the mantissa
    of -1, and needs no rounding. *)
Lemma SFmul_neg_one (x : spec_float) :
  valid_binary x = true ->
  SF64mul (S754_finite true 4503599627370496 (-52)) x = SFopp x.
Proof.
  destruct x as [s | s | | s m e]; try reflexivity.
  cbn [valid_binary]. unfold bounded, canonical_mantissa.
  intros V. apply andb_true_iff in V as [C B]. apply Z.eqb_eq in C.
  unfold SF64mul, SFmul, binary_round_aux, shr_fexp.
  cbn [Zdigits2]. rewrite digits_shift.
  replace (Z.pos (digits2_pos m) + 52 + (-52 + e))%Z
    with (Z.pos (digits2_pos m) + e)%Z by lia.
  rewrite C.
  replace (e - (-52 + e))%Z with 52%Z by lia.
  cbn [shr shr_record_of_loc].
  assert (I : iter_pos shr_1 52
                {| shr_m := Z.pos (4503599627370496 * m);
                   shr_r := false; shr_s := false |} =
              {| shr_m := Z.pos m; shr_r := false; shr_s := false |})
    by reflexivity.
  rewrite I. cbn [shr_m loc_of_shr_record round_nearest_even Zdigits2].
  replace (-52 + e + 52)%Z with e by lia.
  rewrite C, Z.sub_diag. cbn [shr shr_m]. rewrite B. reflexivity.
Qed.

Lemma float_mul_neg_one (x : float) : -1 * x = - x.
Proof.
  apply Prim2SF_inj. rewrite mul_spec, opp_spec, prim_neg_one.
  apply SFmul_neg_one, Prim2SF_valid.
Qed.

Lemma binary_round_opp (m : positive) (e : Z) :
  binary_round prec emax true m e = SFopp (binary_round prec emax false m e).
Proof.
  unfold binary_round, binary_round_aux.
  destruct (shl_align _ _ _) as [mz ez].
  destruct (shr_fexp _ _ _ _ _) as [mrs1 e1].
  destruct (shr_fexp _ _ _ _ _) as [mrs2 e2].
  destruct (shr_m mrs2); try reflexivity.
  destruct (_ <=? _)%Z; reflexivity.
Qed.

Lemma SFopp_involutive (x : spec_float) : SFopp (SFopp x) = x.
Proof. destruct x as [[|] | [|] | | [|] m e]; reflexivity. Qed.

Lemma binary_normalize_opp (z e : Z) :
  z <> 0%Z ->
  binary_normalize prec emax (- z) e false =
  SFopp (binary_normalize prec emax z e false).
Proof.
  destruct z as [| p | p]; intros N; [contradiction | |];
    cbn [Z.opp binary_normalize].
  - apply binary_round_opp.
  - rewrite binary_round_opp, SFopp_involutive. reflexivity.
Qed.

Lemma SFsub_swap (x y : spec_float) :
  SF64sub x y = SFopp (SF64sub y x) \/
  (SF64sub x y = S754_zero false /\ SF64sub y x = S754_zero false).
Proof.
  destruct x as [[|] | [|] | | sx mx ex], y as [[|] | [|] | | sy my ey];
    try (left; reflexivity); try (right; split; reflexivity).
  - left. cbn. destruct sx; reflexivity.
  - left. cbn. destruct sx; reflexivity.
  - unfold SF64sub, SFsub. rewrite (Z.min_comm ey ex).
    set (a := cond_Zopp sx _). set (b := cond_Zopp sy _).
    destruct (Z.eq_dec (a - b) 0) as [Z | N].
    + right. replace (b - a)%Z with 0%Z by lia. rewrite Z. split; reflexivity.
    + left. replace (a - b)%Z with (- (b - a))%Z by lia.
      apply binary_normalize_opp. lia.
Qed.

(** [x - y] is the opposite of [y - x], except that both are [+0] when the
    difference is an exact zero. *)
Lemma float_sub_swap (x y : float) :
  x - y = - (y - x) \/ (x - y = 0 /\ y - x = 0).
Proof.
  destruct (SFsub_swap (Prim2SF x) (Prim2SF y)) as [H | [H1 H2]].
  - left. apply Prim2SF_inj. now rewrite opp_spec, !sub_spec.
  - right. split; apply Prim2SF_inj; rewrite sub_spec; assumption.
Qed.

End Binary64Order.

(** ** Wrap, the cross product and the round trip: reals and binary64 *)

Section RealsAndBinary64.

Import FloatArith RealArith.

Lemma vclamp_nth_any {T : Type} {num : Number T} (d : T) (v lo hi : list T)
      (i : nat) :
  length v = length lo -> length v = length hi -> i < length v ->
  nth i (vclamp v lo hi) d = clamp (nth i v d) (nth i lo d) (nth i hi d).
Proof.
  intros E1 E2 Hi. unfold vclamp.
  rewrite (zip_with_nth _ v (combine lo hi) d (d, d))
    by (rewrite ?length_combine; lia).
  rewrite combine_nth by lia. reflexivity.
Qed.

Lemma float_clamp_cases (libm_pow2 : float -> float) (a lo hi : float) :
  is_nan a = false -> (lo <=? hi)%float = true ->
  (lo <=? clamp (num := binary64 libm_pow2) a lo hi)%float = true /\
  (clamp (num := binary64 libm_pow2) a lo hi <=? hi)%float = true /\
  ((lo <=? a)%float = true -> (a <=? hi)%float = true ->
   clamp (num := binary64 libm_pow2) a lo hi = a) /\
  ((a <? lo)%float = true ->
   clamp (num := binary64 libm_pow2) a lo hi = lo) /\
  ((hi <? a)%float = true ->
   clamp (num := binary64 libm_pow2) a lo hi = hi).
Proof.
  intros Na B. destruct (float_leb_not_nan B) as [Nlo Nhi].
  unfold clamp, py_min, py_max. cbn [nltb binary64].
  destruct (a <? lo)%float eqn:A.
  - rewrite (float_leb_ltb B).
    split; [apply float_leb_refl, Nlo |]. split; [exact B |].
    split; [intros L _; apply float_leb_ltb in L; congruence |].
    split; [reflexivity |]. intros H.
    destruct (float_lt_le_lt_cycle A B H).
  - pose proof (float_ltb_false Na Nlo A) as La.
    destruct (hi <? a)%float eqn:H.
    + split; [exact B |]. split; [apply float_leb_refl, Nhi |].
      split; [intros _ U; apply float_leb_ltb in U; congruence |].
      split; [discriminate | reflexivity].
    + split; [exact La |].
      split; [apply (float_ltb_false Nhi Na H) |].
      split; [reflexivity |]. split; discriminate.
Qed.

(** C5. For bounds of the length of [v] with [min_values[i] <= max_values[i]]
    at every index, and no NaN among the components of [v], wrap returns a
    vector whose every component lies between its bounds; a component
    already between them is returned unchanged, one below its lower bound
    becomes that bound and one above its upper bound becomes that bound: a
    clamp, with no modular wrap-around.  This holds over the reals and over
    binary64 floats, whatever the C library. *)
Theorem vector_wrap_clamps :
  (forall v min_values max_values : list R,
     length v = length min_values -> length v = length max_values ->
     (forall i, i < length v ->
        (nth i min_values 0 <= nth i max_values 0)%R) ->
     exists r,
       vector_wrap v min_values max_values = Ok r /\ length r = length v /\
       forall i, i < length v ->
         (nth i min_values 0 <= nth i r 0 <= nth i max_values 0 /\
          (nth i min_values 0 <= nth i v 0 <= nth i max_values 0 ->
           nth i r 0 = nth i v 0) /\
          (nth i v 0 < nth i min_values 0 -> nth i r 0 = nth i min_values 0) /\
          (nth i max_values 0 < nth i v 0 ->
           nth i r 0 = nth i max_values 0))%R) /\
  (forall (libm_pow2 : float -> float) (v min_values max_values : list float),
     length v = length min_values -> length v = length max_values ->
     Forall (fun x => is_nan x = false) v ->
     (forall i, i < length v ->
        (nth i min_values 0 <=? nth i max_values 0)%float = true) ->
     exists r,
       vector_wrap (num := binary64 libm_pow2) v min_values max_values = Ok r /\
       length r = length v /\
       forall i, i < length v ->
         ((nth i min_values 0 <=? nth i r 0) = true /\
          (nth i r 0 <=? nth i max_values 0) = true /\
          ((nth i min_values 0 <=? nth i v 0) = true ->
           (nth i v 0 <=? nth i max_values 0) = true ->
           nth i r 0 = nth i v 0) /\
          ((nth i v 0 <? nth i min_values 0) = true ->
           nth i r 0 = nth i min_values 0) /\
          ((nth i max_values 0 <? nth i v 0) = true ->
           nth i r 0 = nth i max_values 0))%float).
Proof.
  split; [exact vector_wrap_clamps_real |].
  intros libm_pow2 v lo hi E1 E2 N B.
  exists (vclamp (num := binary64 libm_pow2) v lo hi).
  split; [apply vector_wrap_eq; assumption |].
  split; [apply vclamp_length; assumption |].
  intros i Hi.
  rewrite (vclamp_nth_any (num := binary64 libm_pow2) 0%float) by assumption.
  apply float_clamp_cases; [| apply B, Hi].
  rewrite Forall_forall in N. apply N, nth_In, Hi.
Qed.

Lemma float_cross_component (p q r s : float) :
  (p * q - r * s = -1 * (s * r - q * p) \/
   (p * q - r * s = 0 /\ -1 * (s * r - q * p) = neg_zero))%float.
Proof.
  rewrite float_mul_neg_one, (float_mul_comm s r), (float_mul_comm q p).
  destruct (float_sub_swap (p * q) (r * s)) as [H | [H1 H2]].
  - left. exact H.
  - right. rewrite H1, H2. split; reflexivity.
Qed.

Lemma float_same_eqb (x y : float) :
  is_nan x = false ->
  x = y \/ (x = 0%float /\ y = neg_zero) -> (x =? y)%float = true.
Proof.
  intros N [<- | [-> ->]]; [apply float_eqb_refl, N | reflexivity].
Qed.

(** C6. For vectors [a] and [b] of length 3, [cross(a, b)] is [cross(b, a)]
    multiplied by -1: over the reals the two are equal; over binary64
    floats, whatever the C library, each component of the one is the
    component of the other, or they are the two zeros [0.0] and [-0.0], so
    that Python's [==] holds between the two vectors when [cross(a, b)] has
    no NaN among its components.  With an operand of any other length the
    cross product raises its dimension error. *)
Theorem cross_product_anticommutative :
  (forall a b : list R,
     (length a = 3 -> length b = 3 ->
      exists c c',
        cross_product a b = Ok c /\ cross_product b a = Ok c' /\
        scalar_multiplication c' (-1)%R = Ok c) /\
     (length a <> 3 \/ length b <> 3 ->
      cross_product a b = Raise InvalidDimension)) /\
  (forall (libm_pow2 : float -> float) (a b : list float),
     (length a = 3 -> length b = 3 ->
      exists c c' c'',
        cross_product (num := binary64 libm_pow2) a b = Ok c /\
        cross_product (num := binary64 libm_pow2) b a = Ok c' /\
        scalar_multiplication (num := binary64 libm_pow2) c' (-1)%float =
        Ok c'' /\
        Forall2 (fun x y => x = y \/ (x = 0%float /\ y = neg_zero)) c c'' /\
        (Forall (fun x => is_nan x = false) c ->
         Forall2 (fun x y => (x =? y)%float = true) c c'')) /\
     (length a <> 3 \/ length b <> 3 ->
      cross_product (num := binary64 libm_pow2) a b = Raise InvalidDimension)).
Proof.
  split; [exact cross_product_anticommutative_real |].
  intros libm_pow2 a b. split; [| apply cross_product_invalid].
  intros Ea Eb.
  destruct (length_3 _ Ea) as (a0 & a1 & a2 & ->).
  destruct (length_3 _ Eb) as (b0 & b1 & b2 & ->).
  do 3 eexists. rewrite !cross_product_eq.
  split; [reflexivity |]. split; [reflexivity |].
  rewrite scalar_multiplication_eq.
  split; [reflexivity |]. cbn [vscale map nmul nsub binary64].
  assert (S : Forall2 (fun x y => x = y \/ (x = 0%float /\ y = neg_zero))
                [a1 * b2 - a2 * b1; a2 * b0 - a0 * b2; a0 * b1 - a1 * b0]%float
                [-1 * (b1 * a2 - b2 * a1); -1 * (b2 * a0 - b0 * a2);
                 -1 * (b0 * a1 - b1 * a0)]%float)
    by (constructor; [apply float_cross_component |];
        constructor; [apply float_cross_component |];
        constructor; [apply float_cross_component | constructor]).
  split; [exact S |]. intros N.
  inversion N as [| ? ? N0 N']; subst. inversion N' as [| ? ? N1 N'']; subst.
  inversion N'' as [| ? ? N2 _]; subst.
  inversion S as [| ? ? ? ? S0 S']; subst.
  inversion S' as [| ? ? ? ? S1 S'']; subst.
  inversion S'' as [| ? ? ? ? S2 _]; subst.
  constructor; [apply float_same_eqb; assumption |].
  constructor; [apply float_same_eqb; assumption |].
  constructor; [apply float_same_eqb; assumption | constructor].
Qed.



End RealsAndBinary64.

(** ** The claims at concrete operands *)

Section Instances.

Import FloatArith RealArith.

(** Refraction in both branches: total internal reflection ([k = -1.25]) and
    a ray along the normal ([k = 1]). *)
Lemma vector_refraction_formula_witness :
  (length [1; 0] = length [0; 1] /\
   vector_refraction [1; 0] [0; 1] 1.5 = Ok [0; 0])%float /\
  (length [0; -1] = length [0; 1] /\
   vector_refraction [0; -1] [0; 1] 1 = Ok [0; -1])%float.
Proof.
  split; (split; [reflexivity |]).
  - exact (vector_refraction_formula [1; 0]%float [0; 1]%float 1.5%float eq_refl).
  - exact (vector_refraction_formula [0; -1]%float [0; 1]%float 1%float eq_refl).
Defined.

(** Snap called with a zero increment on the empty vector returns. *)
Lemma vector_snap_zero_increment_accepted :
  (vector_snap [] 0 = Ok [])%float /\
  ~ (exists e, vector_snap [] 0%float = Raise e).
Proof.
  split; [reflexivity |]. intros [e H]. discriminate H.
Qed.

Lemma vector_snap_zero_increment_witness :
  ((0 =? 0) = true /\
   vector_snap [1.5; 2] 0 = Raise ZeroDivisionError /\
   vector_snap [] 0 = Ok [])%float.
Proof.
  split; [reflexivity |]. split.
  - exact (vector_snap_zero_increment [1.5; 2]%float 0%float eq_refl).
  - exact (vector_snap_zero_increment []%float 0%float eq_refl).
Defined.

Lemma mismatched_lengths_raise_witness :
  (length [1; 2; 3] <> length [4; 5] /\
   vector_addition [1; 2; 3] [4; 5] = Raise DimensionMismatch /\
   dot_product [1; 2; 3] [4; 5] = Raise DimensionMismatch /\
   vector_wrap [1; 2; 3] [4; 5] [0; 0; 0] = Raise WrapDimensionMismatch)%float.
Proof.
  assert (N : length [1; 2; 3]%float <> length [4; 5]%float)
    by (simpl; lia).
  pose proof (mismatched_lengths_raise [1; 2; 3]%float [4; 5]%float 1%float N)
    as (Hadd & _ & Hdot & _ & _ & _ & _ & _ & _ & Hwrap & _).
  split; [exact N |]. split; [exact Hadd |]. split; [exact Hdot |].
  apply Hwrap.
Defined.

Lemma vector_face_forward_formula_witness :
  (length [1; 0] = length [-1; 1] /\
   vector_face_forward [1; 0] [-1; 1] [7] = Ok [-1; 1] /\
   vector_face_forward [1; 0] [1; 1] [7] = Ok [-1; -1])%float.
Proof.
  split; [reflexivity |]. split.
  - exact (vector_face_forward_formula [1; 0]%float [-1; 1]%float [7]%float
             eq_refl).
  - exact (vector_face_forward_formula [1; 0]%float [1; 1]%float [7]%float
             eq_refl).
Defined.

(** A third argument of another length, or of none, changes nothing. *)
Lemma vector_face_forward_ignores_ng_witness :
  (length [1; 0] = length [1; 1] /\
   exists r, vector_face_forward [1; 0] [1; 1] [] = Ok r /\
             vector_face_forward [1; 0] [1; 1] [1; 2; 3] = Ok r)%float.
Proof.
  split; [reflexivity |].
  exact (vector_face_forward_ignores_ng [1; 0]%float [1; 1]%float []
           [1; 2; 3]%float eq_refl).
Defined.

(** A NaN component comes back as NaN, which is within no bounds. *)
Lemma vector_wrap_nan :
  (vector_wrap [nan] [0] [1] = Ok [nan] /\
   (0 <=? 1) = true /\ (0 <=? nan) = false /\ (nan <=? 1) = false)%float.
Proof. repeat split; reflexivity. Qed.

Lemma vector_wrap_clamps_witness :
  (exists r,
     vector_wrap [5; -2; 10] [0; 0; 0] [8; 8; 8] = Ok r /\
     length r = 3%nat /\ 0 <= nth 1 r 0 <= 8)%R /\
  (exists r,
     vector_wrap [5; -2; 10] [0; 0; 0] [8; 8; 8] = Ok r /\
     length r = 3%nat /\
     (0 <=? nth 1 r 0) = true /\ (nth 1 r 0 <=? 8) = true)%float.
Proof.
  split.
  - assert (B : forall i, i < 3 ->
                  (nth i [0; 0; 0] 0 <= nth i [8; 8; 8] 0)%R).
    { intros [| [| [| i]]] Hi; simpl; lra. }
    destruct (proj1 vector_wrap_clamps [5; -2; 10]%R [0; 0; 0]%R [8; 8; 8]%R
                eq_refl eq_refl B) as (r & Hr & Hl & Hb).
    exists r. split; [exact Hr |]. split; [exact Hl |].
    apply (Hb 1). simpl. lia.
  - assert (N : Forall (fun x => is_nan x = false) [5; -2; 10]%float)
      by (repeat constructor).
    assert (B : forall i, i < 3 ->
                  (nth i [0; 0; 0] 0 <=? nth i [8; 8; 8] 0)%float = true).
    { intros [| [| [| i]]] Hi; try reflexivity. lia. }
    destruct (proj2 vector_wrap_clamps pow2_correctly_rounded
                [5; -2; 10]%float [0; 0; 0]%float [8; 8; 8]%float
                eq_refl eq_refl N B) as (r & Hr & Hl & Hb).
    exists r. split; [exact Hr |]. split; [exact Hl |].
    destruct (Hb 1) as (H1 & H2 & _); [simpl; lia |]. split; assumption.
Defined.

(** Two overflowing products cancel into a NaN, which Python's [==] does
    not find equal to itself; and an exact zero changes its sign. *)
Lemma cross_product_nan :
  (cross_product [0x1p1000; 0x1p1000; 0] [0x1p1000; 0x1p1000; 0] =
   Ok [0; 0; nan] /\
   (c' <- cross_product [0x1p1000; 0x1p1000; 0] [0x1p1000; 0x1p1000; 0] ;;
    scalar_multiplication c' (-1)) = Ok [neg_zero; neg_zero; nan] /\
   (nan =? nan) = false /\
   cross_product [1; 0; 0] [2; 0; 0] = Ok [0; 0; 0] /\
   (c' <- cross_product [2; 0; 0] [1; 0; 0] ;;
    scalar_multiplication c' (-1)) = Ok [neg_zero; neg_zero; neg_zero] /\
   Prim2SF 0 <> Prim2SF neg_zero)%float.
Proof.
  repeat split; try reflexivity. vm_compute. discriminate.
Qed.

Lemma cross_product_anticommutative_witness :
  (exists c c',
     cross_product [1; 2; 3] [4; 5; 6] = Ok c /\
     cross_product [4; 5; 6] [1; 2; 3] = Ok c' /\
     scalar_multiplication c' (-1) = Ok c)%R /\
  (cross_product [1; 2] [4; 5; 6] = Raise InvalidDimension)%R /\
  (exists c c' c'',
     cross_product [1; 0; 0] [2; 0; 0] = Ok c /\
     cross_product [2; 0; 0] [1; 0; 0] = Ok c' /\
     scalar_multiplication c' (-1) = Ok c'' /\
     Forall2 (fun x y => (x =? y) = true) c c'')%float.
Proof.
  split; [| split].
  - exact (proj1 (proj1 cross_product_anticommutative [1; 2; 3]%R [4; 5; 6]%R)
             eq_refl eq_refl).
  - apply (proj2 (proj1 cross_product_anticommutative [1; 2]%R [4; 5; 6]%R)).
    left. simpl. lia.
  - destruct (proj1 (proj2 cross_product_anticommutative
                       pow2_correctly_rounded
                       [1; 0; 0]%float [2; 0; 0]%float) eq_refl eq_refl)
      as (c & c' & c'' & Hc & Hc' & Hc'' & _ & He).
    exists c, c', c''. split; [exact Hc |]. split; [exact Hc' |].
    split; [exact Hc'' |]. apply He.
    injection Hc as <-. repeat constructor.
Defined.



Lemma operations_preserve_length_witness :
  (returns_same_length [0.6; -0.8] (vector_refraction [0.6; -0.8] [0; 1] 1.5) /\
   returns_same_length [5; -2; 10]
     (vector_wrap [5; -2; 10] [0; 0; 0] [8; 8; 8]) /\
   returns_same_length [1; 2; 3] (scalar_multiplication [1; 2; 3] 2))%R.
Proof.
  pose proof (operations_preserve_length (T := R))
    as (Hmul & _ & _ & _ & Hrefr & _ & Hwrap & _).
  split; [apply Hrefr; reflexivity |].
  split; [apply Hwrap; reflexivity | apply Hmul].
Defined.

End Instances.

(** * Further properties of the library *)

(** ** The printer *)

Section PrinterFormat.

Context {T : Type}.
Variable fmt : T -> string.

Local Open Scope string_scope.

Lemma append_nil_r (s : string) : s ++ "" = s.
Proof. induction s as [| c s IH]; simpl; [reflexivity | now rewrite IH]. Qed.

Lemma append_assoc (s1 s2 s3 : string) : (s1 ++ s2) ++ s3 = s1 ++ (s2 ++ s3).
Proof. induction s1 as [| c s1 IH]; simpl; [reflexivity | now rewrite IH]. Qed.

Lemma getitem_middle {A : Type} (pre suf : list A) (x : A) :
  getitem (pre ++ x :: suf)%list (length pre) = Ok x.
Proof.
  unfold getitem. rewrite nth_error_app2 by lia.
  rewrite Nat.sub_diag. reflexivity.
Qed.

(** The loop, started after the components [pre] with [out] written, writes
    the remaining components separated by a comma and a space. *)
Lemma print_loop (v pre suf : list T) (out : string) :
  v = (pre ++ suf)%list ->
  for_each
    (fun out i =>
       if (Z.of_nat i <? Z.of_nat (length v) - 1)%Z
       then x <- getitem v i ;; Ok (out ++ (fmt x ++ ", "))
       else x <- getitem v i ;; Ok (out ++ fmt x))
    (seq (length pre) (length suf)) out =
  Ok (out ++ String.concat ", " (map fmt suf)).
Proof.
  revert pre out. induction suf as [| x suf IH]; intros pre out E.
  - simpl. now rewrite append_nil_r.
  - assert (G : getitem v (length pre) = Ok x)
      by (rewrite E; apply getitem_middle).
    assert (L : length v = (length pre + S (length suf))%nat)
      by (rewrite E, length_app; reflexivity).
    assert (E' : v = ((pre ++ [x]) ++ suf)%list)
      by (rewrite <- app_assoc; exact E).
    specialize (IH (pre ++ [x])%list).
    rewrite length_app, Nat.add_1_r in IH.
    cbn [length seq for_each]. rewrite G.
    destruct (Z.ltb_spec (Z.of_nat (length pre)) (Z.of_nat (length v) - 1))
      as [Lt | Ge]; cbn [bind].
    + rewrite IH by exact E'.
      destruct suf as [| y suf]; [simpl in L; lia |].
      change (map fmt (x :: y :: suf)) with (fmt x :: map fmt (y :: suf)).
      change (String.concat ", " (fmt x :: map fmt (y :: suf)))
        with (fmt x ++ ", " ++ String.concat ", " (map fmt (y :: suf))).
      now rewrite !append_assoc.
    + destruct suf as [| y suf]; [reflexivity | simpl in L; lia].
Qed.

(** X1. [print_vector] writes the components between square brackets,
    separated by a comma and a space, and ends the line; the empty vector
    is written as a pair of brackets.  No index is out of range. *)
Theorem print_vector_format (v : list T) :
  print_vector fmt v = Ok ("[" ++ String.concat ", " (map fmt v) ++ "]" ++ newline).
Proof.
  unfold print_vector.
  pose proof (print_loop (v := v) [] v "[" eq_refl) as H.
  change (length (@nil T)) with 0%nat in H. rewrite H. cbn [bind].
  now rewrite !append_assoc.
Qed.

End PrinterFormat.

(** ** Properties in every number system *)

Section EveryNumberSystem.

Context {T : Type} {num : Number T} {trig : Trig T}.
Local Open Scope num_scope.

Notation "0" := (of_int 0%Z) : num_scope.
Notation "2" := (of_int 2%Z) : num_scope.

Lemma vclamp_min_max (v lo hi : list T) :
  vclamp v lo hi = zip_with py_min (zip_with py_max v lo) hi.
Proof.
  unfold vclamp, zip_with, clamp. revert lo hi.
  induction v as [| a v IH]; intros [| l lo] [| h hi]; try reflexivity.
  simpl. f_equal. apply IH.
Qed.

(** X2. Wrap is the componentwise maximum with the lower bounds followed by
    the componentwise minimum with the upper bounds. *)
Theorem vector_wrap_is_maximum_then_minimum (v min_values max_values : list T) :
  length v = length min_values -> length v = length max_values ->
  vector_wrap v min_values max_values =
  (m <- vector_maximum v min_values ;; vector_minimum m max_values).
Proof.
  intros E1 E2. rewrite (vector_wrap_eq _ _ _ E1 E2).
  rewrite (vector_maximum_eq _ _ E1). simpl.
  rewrite vector_minimum_eq by (rewrite zip_with_length; congruence).
  f_equal. apply vclamp_min_max.
Qed.

Lemma mapM_raise {A B : Type} (f : A -> result B) (l : list A) (e : exn) :
  mapM f l = Raise e -> exists x, In x l /\ f x = Raise e.
Proof.
  induction l as [| x l IH]; simpl; [discriminate |].
  destruct (f x) as [y | e'] eqn:F; simpl.
  - destruct (mapM f l) as [ys | e'']; simpl; [discriminate |].
    intros H. injection H as ->. destruct (IH eq_refl) as (z & Hz & Fz).
    exists z. split; [right; exact Hz | exact Fz].
  - intros H. injection H as ->. exists x. split; [left; reflexivity | exact F].
Qed.

Lemma mapM_never {A B : Type} (f : A -> result B) (l : list A) (e : exn) :
  (forall x, f x <> Raise e) -> mapM f l <> Raise e.
Proof.
  intros N H. destruct (mapM_raise _ _ H) as (x & _ & F). exact (N x F).
Qed.

Lemma len_ne_sym {A B : Type} (v1 : list A) (v2 : list B) :
  len_ne v1 v2 = len_ne v2 v1.
Proof. unfold len_ne. now rewrite Nat.eqb_sym. Qed.

Lemma zip_with_comm {A B : Type} (f : A -> A -> B) (v1 v2 : list A) :
  (forall x y, f x y = f y x) -> zip_with f v1 v2 = zip_with f v2 v1.
Proof.
  intros C. unfold zip_with. revert v2.
  induction v1 as [| x v1 IH]; intros [| y v2]; try reflexivity.
  simpl. now rewrite C, IH.
Qed.

(** The dot product and the sum of two vectors do not depend on the order
    of the operands wherever the product, respectively the sum, of two
    numbers does not. *)
Lemma dot_product_comm_if (v1 v2 : list T) :
  (forall x y : T, x * y = y * x) -> dot_product v1 v2 = dot_product v2 v1.
Proof.
  intros C. unfold dot_product. rewrite (len_ne_sym v2 v1).
  destruct (len_ne v1 v2) eqn:L; [reflexivity |].
  apply len_ne_inv in L.
  rewrite (comprehension_getitem2 (fun a b => Ok (a * b))) by exact L.
  rewrite (comprehension_getitem2 (fun a b => Ok (a * b))) by (symmetry; exact L).
  rewrite !mapM_pure. simpl. f_equal. f_equal.
  exact (zip_with_comm nmul v1 v2 C).
Qed.

Lemma vector_addition_comm_if (v1 v2 : list T) :
  (forall x y : T, x + y = y + x) ->
  vector_addition v1 v2 = vector_addition v2 v1.
Proof.
  intros C. unfold vector_addition. rewrite (len_ne_sym v2 v1).
  destruct (len_ne v1 v2) eqn:L; [reflexivity |].
  apply len_ne_inv in L.
  rewrite (comprehension_getitem2 (fun a b => Ok (a + b))) by exact L.
  rewrite (comprehension_getitem2 (fun a b => Ok (a + b))) by (symmetry; exact L).
  rewrite !mapM_pure. f_equal. exact (zip_with_comm nadd v1 v2 C).
Qed.

End EveryNumberSystem.

(** ** No index is ever out of range *)

Section IndexSafety.

Context {T : Type} {num : Number T} {trig : Trig T}.
Local Open Scope num_scope.

Notation "0" := (of_int 0%Z) : num_scope.

Lemma bind_never {A B : Type} (c : result A) (k : A -> result B) (e : exn) :
  c <> Raise e -> (forall a, k a <> Raise e) -> (a <- c ;; k a) <> Raise e.
Proof.
  intros Nc Nk. destruct c as [a | e']; simpl; [apply Nk |].
  intros H. injection H as ->. now apply Nc.
Qed.

Lemma unary_never_index_error {B : Type} (f : T -> result B) (v : list T) :
  (forall a, f a <> Raise IndexError) ->
  comprehension (length v) (fun i => a <- getitem v i ;; f a)
  <> Raise IndexError.
Proof.
  intros N. rewrite comprehension_getitem. now apply mapM_never.
Qed.

Lemma binary_never_index_error {B : Type} (f : T -> T -> result B)
      (v1 v2 : list T) :
  (forall a b, f a b <> Raise IndexError) ->
  (if len_ne v1 v2 then Raise DimensionMismatch
   else comprehension (length v1)
          (fun i => a <- getitem v1 i ;; b <- getitem v2 i ;; f a b))
  <> Raise IndexError.
Proof.
  intros N. destruct (len_ne v1 v2) eqn:L; [discriminate |].
  apply len_ne_inv in L. rewrite comprehension_getitem2 by exact L.
  apply mapM_never. intros p. apply N.
Qed.

Lemma dot_product_never_index_error (v1 v2 : list T) :
  dot_product v1 v2 <> Raise IndexError.
Proof.
  unfold dot_product. destruct (len_ne v1 v2) eqn:L; [discriminate |].
  apply len_ne_inv in L.
  rewrite (comprehension_getitem2 (fun a b => Ok (a * b))) by exact L.
  rewrite mapM_pure. discriminate.
Qed.

Lemma truediv_never_index_error (x y : T) : truediv x y <> Raise IndexError.
Proof. unfold truediv. destruct (y =? 0); discriminate. Qed.

Lemma math_sqrt_never_index_error (x : T) : math_sqrt x <> Raise IndexError.
Proof. unfold math_sqrt. destruct (x <? 0); discriminate. Qed.

Lemma scalar_multiplication_never_index_error (v : list T) (s : T) :
  scalar_multiplication v s <> Raise IndexError.
Proof. rewrite scalar_multiplication_eq. discriminate. Qed.

Lemma vector_subtraction_never_index_error (v1 v2 : list T) :
  vector_subtraction v1 v2 <> Raise IndexError.
Proof.
  apply (binary_never_index_error (fun a b => Ok (a - b))). discriminate.
Qed.

(** X3. Whatever the operands, no operation of the library ends in an
    [IndexError]: every index a comprehension uses is within the list it
    reads, as long as the arithmetic of the components does not raise one
    itself. *)
Theorem index_never_out_of_range :
  (forall x : T, npow2 x <> Raise IndexError) ->
  (forall x : T, nround x <> Raise IndexError) ->
  (forall x : T, nfloor x <> Raise IndexError) ->
  (forall x : T, nceil x <> Raise IndexError) ->
  (forall x : T, nsin x <> Raise IndexError) ->
  (forall x : T, ncos x <> Raise IndexError) ->
  (forall x : T, ntan x <> Raise IndexError) ->
  (forall v1 v2 : list T,
     vector_addition v1 v2 <> Raise IndexError /\
     vector_subtraction v1 v2 <> Raise IndexError /\
     dot_product v1 v2 <> Raise IndexError /\
     cross_product v1 v2 <> Raise IndexError /\
     vector_projection v1 v2 <> Raise IndexError /\
     vector_reflection v1 v2 <> Raise IndexError /\
     vector_distance v1 v2 <> Raise IndexError /\
     vector_minimum v1 v2 <> Raise IndexError /\
     vector_maximum v1 v2 <> Raise IndexError) /\
  (forall (v1 v2 v3 : list T) (s : T),
     vector_refraction v1 v2 s <> Raise IndexError /\
     vector_face_forward v1 v2 v3 <> Raise IndexError /\
     vector_wrap v1 v2 v3 <> Raise IndexError) /\
  (forall (v : list T) (s : T),
     scalar_multiplication v s <> Raise IndexError /\
     vector_scale v s <> Raise IndexError /\
     vector_snap v s <> Raise IndexError /\
     vector_length v <> Raise IndexError /\
     vector_absolute v <> Raise IndexError /\
     vector_floor v <> Raise IndexError /\
     vector_ceil v <> Raise IndexError /\
     vector_sin v <> Raise IndexError /\
     vector_cos v <> Raise IndexError /\
     vector_tan v <> Raise IndexError).
Proof.
  intros Npow Nround Nfloor Nceil Nsin Ncos Ntan.
  split; [| split].
  - intros v1 v2. repeat split.
    + apply (binary_never_index_error (fun a b => Ok (a + b))). discriminate.
    + apply vector_subtraction_never_index_error.
    + apply dot_product_never_index_error.
    + unfold cross_product.
      destruct (Nat.eqb_spec (length v1) 3) as [E1 |]; [| discriminate].
      destruct (Nat.eqb_spec (length v2) 3) as [E2 |]; [| discriminate].
      destruct (length_3 _ E1) as (a0 & a1 & a2 & ->).
      destruct (length_3 _ E2) as (b0 & b1 & b2 & ->). discriminate.
    + unfold vector_projection. destruct (len_ne v1 v2); [discriminate |].
      apply bind_never; [apply dot_product_never_index_error | intros d].
      apply bind_never; [apply dot_product_never_index_error | intros m].
      apply bind_never; [apply truediv_never_index_error | intros q].
      apply scalar_multiplication_never_index_error.
    + unfold vector_reflection. destruct (len_ne v1 v2); [discriminate |].
      apply bind_never; [apply dot_product_never_index_error | intros d].
      apply bind_never; [apply dot_product_never_index_error | intros m].
      apply bind_never; [apply truediv_never_index_error | intros q].
      apply bind_never;
        [apply scalar_multiplication_never_index_error | intros sn].
      apply vector_subtraction_never_index_error.
    + unfold vector_distance. destruct (len_ne v1 v2) eqn:L; [discriminate |].
      apply len_ne_inv in L.
      apply bind_never; [| intros sq; apply math_sqrt_never_index_error].
      rewrite (comprehension_getitem2 (fun a b => npow2 (a - b))) by exact L.
      apply mapM_never. intros p. apply Npow.
    + apply (binary_never_index_error (fun a b => Ok (py_min a b))).
      discriminate.
    + apply (binary_never_index_error (fun a b => Ok (py_max a b))).
      discriminate.
  - intros v1 v2 v3 s. repeat split.
    + unfold vector_refraction. destruct (len_ne v1 v2); [discriminate |].
      apply bind_never; [apply dot_product_never_index_error | intros d].
      destruct (_ <? 0); [discriminate |].
      apply bind_never;
        [apply scalar_multiplication_never_index_error | intros ev].
      apply bind_never; [apply math_sqrt_never_index_error | intros rt].
      apply bind_never;
        [apply scalar_multiplication_never_index_error | intros sn].
      apply vector_subtraction_never_index_error.
    + unfold vector_face_forward.
      apply bind_never; [apply dot_product_never_index_error | intros d].
      destruct (d <? 0); [discriminate |].
      apply scalar_multiplication_never_index_error.
    + unfold vector_wrap.
      destruct (len_ne v1 v2) eqn:L2; [discriminate |].
      destruct (len_ne v1 v3) eqn:L3; [discriminate |]. simpl.
      apply len_ne_inv in L2. apply len_ne_inv in L3.
      rewrite (comprehension_getitem3
                 (fun a l h => Ok (py_min (py_max a l) h))) by assumption.
      rewrite mapM_pure. discriminate.
  - intros v s. repeat split.
    + apply scalar_multiplication_never_index_error.
    + rewrite vector_scale_eq. discriminate.
    + rewrite vector_snap_eq. apply mapM_never. intros a.
      apply bind_never; [apply truediv_never_index_error | intros q].
      apply bind_never; [apply Nround | discriminate].
    + unfold vector_length.
      apply bind_never; [| intros sq; apply math_sqrt_never_index_error].
      apply unary_never_index_error. exact Npow.
    + rewrite vector_absolute_eq. discriminate.
    + apply unary_never_index_error. exact Nfloor.
    + apply unary_never_index_error. exact Nceil.
    + apply unary_never_index_error. exact Nsin.
    + apply unary_never_index_error. exact Ncos.
    + apply unary_never_index_error. exact Ntan.
Qed.

End IndexSafety.

(** ** Order of the operands *)

Section OperandOrder.

Import FloatArith RealArith.

Lemma SFadd_comm (x y : spec_float) : SF64add x y = SF64add y x.
Proof.
  destruct x as [[|] | [|] | | sx mx ex], y as [[|] | [|] | | sy my ey];
    try reflexivity.
  unfold SF64add, SFadd. rewrite (Z.min_comm ey ex). f_equal. apply Z.add_comm.
Qed.

(** The rounded sum does not depend on the order of its terms. *)
Lemma float_add_comm (x y : float) : (x + y = y + x)%float.
Proof.
  apply Prim2SF_inj. rewrite !add_spec. apply SFadd_comm.
Qed.

(** X4. The dot product does not depend on the order of its operands, over
    the reals and over binary64 floats; with lengths that differ both orders
    raise the same error. *)
Theorem dot_product_commutative :
  (forall v1 v2 : list R, dot_product v1 v2 = dot_product v2 v1) /\
  (forall v1 v2 : list float, dot_product v1 v2 = dot_product v2 v1).
Proof.
  split; intros v1 v2; apply dot_product_comm_if.
  - exact Rmult_comm.
  - exact float_mul_comm.
Qed.

(** X5. Vector addition does not depend on the order of its operands, over
    the reals and over binary64 floats; with lengths that differ both orders
    raise the same error. *)
Theorem vector_addition_commutative :
  (forall v1 v2 : list R, vector_addition v1 v2 = vector_addition v2 v1) /\
  (forall v1 v2 : list float, vector_addition v1 v2 = vector_addition v2 v1).
Proof.
  split; intros v1 v2; apply vector_addition_comm_if.
  - exact Rplus_comm.
  - exact float_add_comm.
Qed.

(** On binary64 the order of the factors of scalar multiplication and of
    the operands of the dot product and of the sum does not matter on any
    platform: none of the three calls the C library. *)
Lemma binary64_operand_order (libm_pow2 : float -> float) :
  (forall (v : list float) (s : float),
     scalar_multiplication (num := binary64 libm_pow2) v s =
     vector_scale (num := binary64 libm_pow2) v s) /\
  (forall v1 v2 : list float,
     dot_product (num := binary64 libm_pow2) v1 v2 =
     dot_product (num := binary64 libm_pow2) v2 v1) /\
  (forall v1 v2 : list float,
     vector_addition (num := binary64 libm_pow2) v1 v2 =
     vector_addition (num := binary64 libm_pow2) v2 v1).
Proof.
  split; [| split].
  - intros v s. apply scale_commutes. exact float_mul_comm.
  - intros v1 v2. apply dot_product_comm_if. exact float_mul_comm.
  - intros v1 v2. apply vector_addition_comm_if. exact float_add_comm.
Qed.

End OperandOrder.

(** ** Vector algebra over the reals *)

Section RealAlgebra.

Import RealArith.
Local Open Scope R_scope.

Lemma fold_left_Rplus (l : list R) (a : R) :
  fold_left Rplus l a = a + fold_left Rplus l 0.
Proof.
  revert a. induction l as [| x l IH]; intros a; simpl; [ring |].
  rewrite IH, (IH (0 + x)). ring.
Qed.

Lemma py_sum_nil : py_sum (@nil R) = 0.
Proof. reflexivity. Qed.

Lemma py_sum_cons (x : R) (l : list R) : py_sum (x :: l) = x + py_sum l.
Proof.
  unfold py_sum. cbn. rewrite fold_left_Rplus. ring.
Qed.

Lemma dot_nil_l (w : list R) : dot [] w = 0.
Proof. reflexivity. Qed.

Lemma dot_nil_r (v : list R) : dot v [] = 0.
Proof. destruct v; reflexivity. Qed.

Lemma dot_cons (x y : R) (v w : list R) :
  dot (x :: v) (y :: w) = x * y + dot v w.
Proof.
  unfold dot, zip_with. cbn [combine map fst snd]. apply py_sum_cons.
Qed.

Lemma dot_comm (v w : list R) : dot v w = dot w v.
Proof.
  unfold dot. f_equal. apply (zip_with_comm (A := R)). exact Rmult_comm.
Qed.

Lemma dot_vscale_l (s : R) (v w : list R) :
  dot (vscale s v) w = s * dot v w.
Proof.
  revert w. induction v as [| x v IH]; intros [| y w];
    rewrite ?dot_nil_l, ?dot_nil_r; try ring.
  change (vscale s (x :: v)) with (s * x :: vscale s v).
  rewrite !dot_cons, IH. ring.
Qed.

Lemma dot_vscale_r (s : R) (v w : list R) :
  dot v (vscale s w) = s * dot v w.
Proof. rewrite dot_comm, dot_vscale_l, dot_comm. reflexivity. Qed.

Lemma vsub_cons (x y : R) (v w : list R) :
  vsub (x :: v) (y :: w) = (x - y) :: vsub v w.
Proof. reflexivity. Qed.

Lemma vadd_cons (x y : R) (v w : list R) :
  vadd (x :: v) (y :: w) = (x + y) :: vadd v w.
Proof. reflexivity. Qed.

Lemma dot_vsub_l (a b w : list R) :
  length a = length b -> dot (vsub a b) w = dot a w - dot b w.
Proof.
  revert b w. induction a as [| x a IH]; intros [| y b] w E; try discriminate.
  - rewrite !dot_nil_l. ring.
  - destruct w as [| z w]; [rewrite !dot_nil_r; ring |].
    rewrite vsub_cons, !dot_cons, IH by (simpl in E; lia). ring.
Qed.

Lemma dot_self_nonneg (v : list R) : 0 <= dot v v.
Proof.
  induction v as [| x v IH]; [rewrite dot_nil_l; lra |].
  rewrite dot_cons. nra.
Qed.

Lemma dot_self_zero (v : list R) :
  dot v v = 0 <-> Forall (fun x => x = 0) v.
Proof.
  induction v as [| x v IH]; [split; [constructor | reflexivity] |].
  rewrite dot_cons. pose proof (dot_self_nonneg v) as P. split.
  - intros H. constructor; [nra |]. apply IH. nra.
  - intros H. inversion H as [| ? ? Hx Hv]; subst.
    apply IH in Hv. rewrite Hv. ring.
Qed.

Lemma Rltb_false (x y : R) : y <= x -> Rltb x y = false.
Proof. intros H. unfold Rltb. destruct (Rlt_dec x y); [lra | reflexivity]. Qed.

Lemma Reqb_false (x y : R) : x <> y -> Reqb x y = false.
Proof.
  intros H. unfold Reqb. destruct (Req_dec_T x y); [contradiction | reflexivity].
Qed.

Lemma Reqb_true (x : R) : Reqb x x = true.
Proof. apply Reqb_eq. reflexivity. Qed.

Lemma zip_with_self_square (v : list R) :
  zip_with Rmult v v = map (fun a => a * a) v.
Proof.
  unfold zip_with. induction v as [| x v IH]; [reflexivity |].
  simpl. now rewrite IH.
Qed.

(** The length is the square root of the dot product of the vector with
    itself; the square root is always defined. *)
Lemma vector_length_eq (v : list R) :
  vector_length v = Ok (R_sqrt.sqrt (dot v v)).
Proof.
  unfold vector_length.
  rewrite (comprehension_getitem (fun a : R => npow2 a)). cbn [npow2 R_number].
  rewrite mapM_pure. cbn [bind]. unfold math_sqrt.
  change (py_sum (map (fun x : R => x * x) v)) with
    (py_sum (map (fun a : R => a * a) v)).
  rewrite <- zip_with_self_square. fold (dot v v).
  cbn [nltb R_number of_int]. rewrite Rltb_false by apply dot_self_nonneg.
  reflexivity.
Qed.

Lemma vector_distance_eq (a b : list R) :
  length a = length b ->
  vector_distance a b = Ok (R_sqrt.sqrt (dot (vsub a b) (vsub a b))).
Proof.
  intros E. unfold vector_distance. rewrite (len_ne_false _ _ E).
  rewrite (comprehension_getitem2 (fun x y : R => npow2 (x - y)%num))
    by exact E.
  cbn [npow2 nsub R_number].
  rewrite (mapM_pure (fun p : R * R => (fst p - snd p) * (fst p - snd p))).
  cbn [bind]. unfold math_sqrt.
  replace (map (fun p : R * R => (fst p - snd p) * (fst p - snd p))
               (combine a b))
    with (zip_with Rmult (vsub a b) (vsub a b)).
  - fold (dot (vsub a b) (vsub a b)).
    cbn [nltb R_number of_int]. rewrite Rltb_false by apply dot_self_nonneg.
    reflexivity.
  - rewrite zip_with_self_square. unfold vsub, zip_with.
    rewrite map_map. reflexivity.
Qed.

(** The specification's scenario [length([3,4]) -> 5]. *)
Example length_scenario : vector_length [3; 4] = Ok 5.
Proof.
  rewrite vector_length_eq. f_equal.
  rewrite !dot_cons, dot_nil_l.
  replace (3 * 3 + (4 * 4 + 0)) with (5 * 5) by ring.
  apply sqrt_square. lra.
Qed.

End RealAlgebra.

(** ** Values of refraction and face-forward *)

Section Values.

Context {T : Type} {num : Number T}.
Local Open Scope num_scope.

Notation "0" := (of_int 0%Z) : num_scope.
Notation "1" := (of_int 1%Z) : num_scope.
Notation "-1" := (of_int (-1)%Z) : num_scope.

Lemma vector_refraction_value (v normal : list T) (eta : T) :
  length v = length normal ->
  vector_refraction v normal eta =
  Ok (if 1 - eta * eta * (1 - dot v normal * dot v normal) <? 0
      then vzero (length v)
      else vsub (vscale eta v)
             (vscale (eta * dot v normal +
                      nsqrt (1 - eta * eta * (1 - dot v normal * dot v normal)))
                normal)).
Proof.
  intros E. unfold vector_refraction.
  rewrite (len_ne_false _ _ E), (dot_product_eq _ _ E). cbn [bind].
  destruct (_ <? 0) eqn:Hk; [reflexivity |].
  rewrite scalar_multiplication_eq. cbn [bind].
  rewrite (math_sqrt_defined _ Hk). cbn [bind].
  rewrite scalar_multiplication_eq. cbn [bind].
  apply vector_subtraction_eq. rewrite !vscale_length. exact E.
Qed.

Lemma vector_face_forward_value (n i ng : list T) :
  length n = length i ->
  vector_face_forward n i ng = Ok (if dot n i <? 0 then i else vscale (-1) i).
Proof.
  intros E. unfold vector_face_forward.
  rewrite (dot_product_eq _ _ E). cbn [bind].
  destruct (dot n i <? 0); [reflexivity | apply scalar_multiplication_eq].
Qed.

End Values.

(** ** Projection and reflection over the reals *)

Section ProjectionReflection.

Import RealArith.
Local Open Scope R_scope.

Lemma vsub_length (a b : list R) :
  length a = length b -> length (vsub a b) = length a.
Proof. apply zip_with_length. Qed.

Lemma dot_nonzero (v : list R) :
  ~ Forall (fun x => x = 0) v -> dot v v <> 0.
Proof. intros N H. apply N, dot_self_zero, H. Qed.

Lemma vector_projection_real (v1 v2 : list R) :
  length v1 = length v2 -> dot v2 v2 <> 0 ->
  vector_projection v1 v2 = Ok (vscale (dot v1 v2 / dot v2 v2) v2).
Proof.
  intros E NZ. rewrite (vector_projection_eq v1 v2 E); [reflexivity |].
  cbn [neqb R_number of_int]. apply Reqb_false, NZ.
Qed.

Lemma vector_reflection_real (v n : list R) :
  length v = length n -> dot n n <> 0 ->
  vector_reflection v n = Ok (vsub v (vscale (2 * dot v n / dot n n) n)).
Proof.
  intros E NZ. rewrite (vector_reflection_eq v n E); [reflexivity |].
  cbn [neqb R_number of_int]. apply Reqb_false, NZ.
Qed.

Lemma vector_projection_zero (v1 v2 : list R) :
  length v1 = length v2 -> dot v2 v2 = 0 ->
  vector_projection v1 v2 = Raise ZeroDivisionError.
Proof.
  intros E Z. unfold vector_projection.
  rewrite (len_ne_false _ _ E), (dot_product_eq _ _ E).
  rewrite (dot_product_eq v2 v2 eq_refl). cbn [bind]. unfold truediv.
  cbn [neqb R_number of_int]. rewrite Z, Reqb_true. reflexivity.
Qed.

Lemma vector_reflection_zero (v n : list R) :
  length v = length n -> dot n n = 0 ->
  vector_reflection v n = Raise ZeroDivisionError.
Proof.
  intros E Z. unfold vector_reflection.
  rewrite (len_ne_false _ _ E), (dot_product_eq _ _ E).
  rewrite (dot_product_eq n n eq_refl). cbn [bind]. unfold truediv.
  cbn [neqb R_number of_int]. rewrite Z, Reqb_true. reflexivity.
Qed.

(** X6. With operands of one length, projection and reflection raise
    [ZeroDivisionError] exactly when every component of the second operand
    is zero; the empty vector is such an operand. *)
Theorem projection_reflection_zero_divisor (v1 v2 : list R) :
  length v1 = length v2 ->
  (vector_projection v1 v2 = Raise ZeroDivisionError <->
   Forall (fun x => x = 0) v2) /\
  (vector_reflection v1 v2 = Raise ZeroDivisionError <->
   Forall (fun x => x = 0) v2).
Proof.
  intros E. destruct (Req_dec_T (dot v2 v2) 0) as [Z | NZ].
  - pose proof (proj1 (dot_self_zero v2) Z) as F. split; split; intros _;
      try exact F.
    + apply vector_projection_zero; assumption.
    + apply vector_reflection_zero; assumption.
  - split; split; intros H.
    + rewrite vector_projection_real in H by assumption. discriminate.
    + apply dot_self_zero in H. contradiction.
    + rewrite vector_reflection_real in H by assumption. discriminate.
    + apply dot_self_zero in H. contradiction.
Qed.

Lemma projection_reflection_zero_divisor_witness :
  length [1; 2] = length [0; 0] /\
  vector_projection [1; 2] [0; 0] = Raise ZeroDivisionError /\
  vector_reflection [1; 2] [0; 0] = Raise ZeroDivisionError.
Proof.
  split; [reflexivity |].
  destruct (projection_reflection_zero_divisor [1; 2] [0; 0] eq_refl)
    as [P Q].
  split; [apply P | apply Q]; repeat constructor.
Defined.

(** X7. Projecting onto a vector that is not zero is idempotent, and what
    the projection takes away from [v1] is orthogonal to [v2]. *)
Theorem vector_projection_idempotent (v1 v2 : list R) :
  length v1 = length v2 -> ~ Forall (fun x => x = 0) v2 ->
  exists p,
    vector_projection v1 v2 = Ok p /\
    vector_projection p v2 = Ok p /\
    (r <- vector_subtraction v1 p ;; dot_product r v2) = Ok 0.
Proof.
  intros E N. apply dot_nonzero in N.
  exists (vscale (dot v1 v2 / dot v2 v2) v2).
  assert (L : length (vscale (dot v1 v2 / dot v2 v2) v2) = length v2)
    by apply vscale_length.
  split; [apply vector_projection_real; assumption |]. split.
  - rewrite vector_projection_real by assumption.
    rewrite dot_vscale_l. do 2 f_equal. field. exact N.
  - rewrite vector_subtraction_eq by congruence. cbn [bind].
    rewrite dot_product_eq by (rewrite vsub_length; congruence).
    f_equal. rewrite dot_vsub_l by congruence. rewrite dot_vscale_l.
    field. exact N.
Qed.

Lemma vector_projection_idempotent_witness :
  (length [1; 2] = length [3; 4] /\
   exists p,
     vector_projection [1; 2] [3; 4] = Ok p /\
     vector_projection p [3; 4] = Ok p /\
     (r <- vector_subtraction [1; 2] p ;; dot_product r [3; 4]) = Ok 0).
Proof.
  split; [reflexivity |].
  apply (@vector_projection_idempotent [1; 2] [3; 4] eq_refl).
  intros H. inversion H. lra.
Defined.

End ProjectionReflection.

Section ReflectionLaws.

Import RealArith.
Local Open Scope R_scope.

Lemma vsub_vscale_cancel (s : R) (v n : list R) :
  length v = length n -> vsub (vsub v (vscale s n)) (vscale (- s) n) = v.
Proof.
  revert n. induction v as [| x v IH]; intros [| y n] E; try discriminate;
    [reflexivity |].
  change (vscale s (y :: n)) with (s * y :: vscale s n).
  change (vscale (- s) (y :: n)) with (- s * y :: vscale (- s) n).
  rewrite !vsub_cons, IH by (simpl in E; lia). f_equal. ring.
Qed.

Lemma dot_reflected (s : R) (v n : list R) :
  length v = length n ->
  dot (vsub v (vscale s n)) (vsub v (vscale s n)) =
  dot v v - 2 * s * dot v n + s * s * dot n n.
Proof.
  revert n. induction v as [| x v IH]; intros [| y n] E; try discriminate.
  - rewrite !dot_nil_l. ring.
  - change (vscale s (y :: n)) with (s * y :: vscale s n).
    rewrite vsub_cons, !dot_cons, IH by (simpl in E; lia). ring.
Qed.

Lemma vscale_vscale (s t : R) (v : list R) :
  vscale t (vscale s v) = vscale (t * s) v.
Proof.
  unfold vscale. rewrite map_map. apply map_ext. intros a. cbn. ring.
Qed.

(** X8. Reflection about a normal that is not zero is an involution, and it
    keeps the length of the vector. *)
Theorem vector_reflection_involution (v normal : list R) :
  length v = length normal -> ~ Forall (fun x => x = 0) normal ->
  exists r,
    vector_reflection v normal = Ok r /\
    vector_reflection r normal = Ok v /\
    vector_length r = vector_length v.
Proof.
  intros E N. apply dot_nonzero in N.
  set (s := 2 * dot v normal / dot normal normal).
  exists (vsub v (vscale s normal)).
  assert (L : length (vsub v (vscale s normal)) = length normal)
    by (rewrite vsub_length; rewrite ?vscale_length; congruence).
  split; [apply vector_reflection_real; assumption |]. split.
  - rewrite vector_reflection_real by assumption.
    rewrite dot_vsub_l, dot_vscale_l by (rewrite vscale_length; exact E).
    replace (2 * (dot v normal - s * dot normal normal) / dot normal normal)
      with (- s) by (unfold s; field; exact N).
    f_equal. apply vsub_vscale_cancel, E.
  - rewrite !vector_length_eq. do 2 f_equal.
    rewrite dot_reflected by exact E. unfold s. field. exact N.
Qed.

Lemma vector_reflection_involution_witness :
  length [1; 2] = length [0; 3] /\
  exists r,
    vector_reflection [1; 2] [0; 3] = Ok r /\
    vector_reflection r [0; 3] = Ok [1; 2] /\
    vector_length r = vector_length [1; 2].
Proof.
  split; [reflexivity |].
  apply (@vector_reflection_involution [1; 2] [0; 3] eq_refl).
  intros H. inversion H as [| ? ? _ H']. inversion H'. lra.
Defined.

(** X9. Reflection is the vector minus twice its projection onto the
    normal, for all operands: with lengths that differ both sides raise the
    dimension error, and with a zero normal both raise
    [ZeroDivisionError]. *)
Theorem vector_reflection_by_projection (v normal : list R) :
  (p <- vector_projection v normal ;;
   p2 <- scalar_multiplication p 2 ;;
   vector_subtraction v p2) =
  vector_reflection v normal.
Proof.
  destruct (len_ne v normal) eqn:L.
  - unfold vector_projection, vector_reflection. rewrite L. reflexivity.
  - apply len_ne_inv in L.
    destruct (Req_dec_T (dot normal normal) 0) as [Z | NZ].
    + rewrite vector_projection_zero, vector_reflection_zero by assumption.
      reflexivity.
    + rewrite vector_projection_real, vector_reflection_real by assumption.
      cbn [bind]. rewrite scalar_multiplication_eq. cbn [bind].
      rewrite vector_subtraction_eq by (rewrite !vscale_length; exact L).
      do 2 f_equal. rewrite vscale_vscale. f_equal. field. exact NZ.
Qed.

End ReflectionLaws.

(** ** The cross product over the reals *)

Section CrossProduct.

Import RealArith.
Local Open Scope R_scope.

Lemma dot3 (a0 a1 a2 b0 b1 b2 : R) :
  dot [a0; a1; a2] [b0; b1; b2] = a0 * b0 + a1 * b1 + a2 * b2.
Proof. rewrite !dot_cons, dot_nil_l. ring. Qed.

(** X10. The cross product of two 3-vectors is orthogonal to both: its dot
    product with either operand is zero. *)
Theorem cross_product_orthogonal (a b : list R) :
  length a = 3%nat -> length b = 3%nat ->
  exists c,
    cross_product a b = Ok c /\
    dot_product a c = Ok 0 /\ dot_product b c = Ok 0.
Proof.
  intros Ea Eb.
  destruct (length_3 _ Ea) as (a0 & a1 & a2 & ->).
  destruct (length_3 _ Eb) as (b0 & b1 & b2 & ->).
  eexists. rewrite cross_product_eq. split; [reflexivity |].
  rewrite !dot_product_eq by reflexivity. cbn [nmul nsub R_number].
  rewrite !dot3. split; f_equal; ring.
Qed.

Lemma cross_product_orthogonal_witness :
  length [1; 2; 3] = 3%nat /\ length [4; 5; 6] = 3%nat /\
  exists c,
    cross_product [1; 2; 3] [4; 5; 6] = Ok c /\
    dot_product [1; 2; 3] c = Ok 0 /\ dot_product [4; 5; 6] c = Ok 0.
Proof.
  split; [reflexivity |]. split; [reflexivity |].
  exact (@cross_product_orthogonal [1; 2; 3] [4; 5; 6] eq_refl eq_refl).
Defined.

(** X11. The cross product of a 3-vector with any multiple of itself is the
    zero vector. *)
Theorem cross_product_parallel (a : list R) (s : R) :
  length a = 3%nat ->
  (sa <- scalar_multiplication a s ;; cross_product a sa) = Ok [0; 0; 0].
Proof.
  intros Ea. destruct (length_3 _ Ea) as (a0 & a1 & a2 & ->).
  rewrite scalar_multiplication_eq. cbn [bind vscale map].
  rewrite cross_product_eq. cbn [nmul nsub R_number].
  f_equal. f_equal; [| f_equal; [| f_equal]]; ring.
Qed.

Lemma cross_product_parallel_witness :
  length [1; 2; 3] = 3%nat /\
  (sa <- scalar_multiplication [1; 2; 3] 5 ;; cross_product [1; 2; 3] sa) =
  Ok [0; 0; 0].
Proof.
  split; [reflexivity |].
  exact (@cross_product_parallel [1; 2; 3] 5 eq_refl).
Defined.

End CrossProduct.

(** ** Length and distance over the reals *)

Section LengthDistance.

Import RealArith.
Local Open Scope R_scope.

Lemma vsub_vzero (v : list R) : vsub v (vzero (length v)) = v.
Proof.
  induction v as [| x v IH]; [reflexivity |].
  change (vzero (length (x :: v))) with (0 :: vzero (T := R) (length v)).
  rewrite vsub_cons, IH. f_equal. ring.
Qed.

(** X12. The length of a vector is its distance from the zero vector of the
    same dimension. *)
Theorem vector_length_is_distance_from_zero (v : list R) :
  vector_distance v (repeat 0 (length v)) = vector_length v.
Proof.
  rewrite vector_distance_eq by (now rewrite repeat_length).
  rewrite vector_length_eq. fold (vzero (T := R) (length v)).
  now rewrite vsub_vzero.
Qed.

Lemma dot_vsub_swap (a b : list R) :
  dot (vsub a b) (vsub a b) = dot (vsub b a) (vsub b a).
Proof.
  revert b. induction a as [| x a IH]; intros [| y b]; try reflexivity.
  rewrite !vsub_cons, !dot_cons, IH. ring.
Qed.

(** X13. The distance does not depend on the order of its operands; with
    lengths that differ both orders raise the dimension error. *)
Theorem vector_distance_symmetric (a b : list R) :
  vector_distance a b = vector_distance b a.
Proof.
  destruct (len_ne a b) eqn:L.
  - unfold vector_distance. rewrite (len_ne_sym b a), L. reflexivity.
  - apply len_ne_inv in L.
    rewrite !vector_distance_eq by congruence.
    now rewrite dot_vsub_swap.
Qed.

Lemma vsub_zero_eq (a b : list R) :
  length a = length b -> Forall (fun x => x = 0) (vsub a b) -> a = b.
Proof.
  revert b. induction a as [| x a IH]; intros [| y b] E F; try discriminate;
    [reflexivity |].
  rewrite vsub_cons in F. inversion F as [| ? ? Hx Hr]; subst.
  f_equal; [lra |]. apply IH; [simpl in E; lia | exact Hr].
Qed.

Lemma vsub_self (a : list R) : Forall (fun x => x = 0) (vsub a a).
Proof.
  induction a as [| x a IH]; [constructor |].
  rewrite vsub_cons. constructor; [ring | exact IH].
Qed.

(** X14. For operands of one length the distance is returned (the square
    root is never taken of a negative sum), it is not negative, and it is
    zero exactly when the two vectors are equal. *)
Theorem vector_distance_metric (a b : list R) :
  length a = length b ->
  exists d, vector_distance a b = Ok d /\ 0 <= d /\ (d = 0 <-> a = b).
Proof.
  intros E. eexists. split; [apply vector_distance_eq, E |].
  split; [apply sqrt_pos |]. split.
  - intros H. apply sqrt_eq_0 in H; [| apply dot_self_nonneg].
    apply vsub_zero_eq; [exact E |]. apply dot_self_zero, H.
  - intros <-. rewrite (proj2 (dot_self_zero _) (vsub_self a)).
    apply sqrt_0.
Qed.

Lemma vector_distance_metric_witness :
  length [1; 2] = length [4; 6] /\
  exists d, vector_distance [1; 2] [4; 6] = Ok d /\ 0 <= d /\
            (d = 0 <-> [1; 2] = [4; 6]).
Proof.
  split; [reflexivity |].
  exact (@vector_distance_metric [1; 2] [4; 6] eq_refl).
Defined.

(** X15. Scaling a vector by [s] scales its length by the absolute value
    of [s]. *)
Theorem vector_length_scaling (v : list R) (s : R) :
  (sv <- scalar_multiplication v s ;; vector_length sv) =
  (l <- vector_length v ;; Ok (Rabs s * l)).
Proof.
  rewrite scalar_multiplication_eq. cbn [bind]. rewrite !vector_length_eq.
  cbn [bind]. f_equal. rewrite dot_vscale_l, dot_vscale_r.
  rewrite <- Rmult_assoc, sqrt_mult_alt by nra.
  f_equal. apply sqrt_Rsqr_abs.
Qed.

(** X16. The length is never negative and its square is the dot product of
    the vector with itself. *)
Theorem vector_length_squared (v : list R) :
  exists l,
    vector_length v = Ok l /\ 0 <= l /\ dot_product v v = Ok (l * l).
Proof.
  eexists. split; [apply vector_length_eq |]. split; [apply sqrt_pos |].
  rewrite dot_product_eq by reflexivity. f_equal. symmetry.
  apply sqrt_sqrt, dot_self_nonneg.
Qed.

End LengthDistance.

(** ** Face-forward and refraction over the reals *)

Section FaceForwardRefraction.

Import RealArith.
Local Open Scope R_scope.

(** X17. Face-forward returns a vector that does not point along [n]: its
    dot product with [n] is never positive. *)
Theorem vector_face_forward_faces (n i ng : list R) :
  length n = length i ->
  exists r d,
    vector_face_forward n i ng = Ok r /\
    dot_product n r = Ok d /\ d <= 0.
Proof.
  intros E. rewrite (vector_face_forward_value _ _ ng E).
  cbn [nltb R_number of_int]. unfold Rltb.
  destruct (Rlt_dec (dot n i) 0) as [Lt | Ge].
  - exists i, (dot n i). split; [reflexivity |].
    split; [apply dot_product_eq, E | lra].
  - exists (vscale (-1) i), (-1 * dot n i). split; [reflexivity |].
    split; [| lra].
    rewrite dot_product_eq by (rewrite vscale_length; exact E).
    now rewrite dot_vscale_r.
Qed.

Lemma vector_face_forward_faces_witness :
  length [1; 0] = length [2; 5] /\
  exists r d,
    vector_face_forward [1; 0] [2; 5] [] = Ok r /\
    dot_product [1; 0] r = Ok d /\ d <= 0.
Proof.
  split; [reflexivity |].
  exact (@vector_face_forward_faces [1; 0] [2; 5] [] eq_refl).
Defined.

Lemma vscale_one (v : list R) : vscale 1 v = v.
Proof.
  unfold vscale. rewrite <- (map_id v) at 2. apply map_ext.
  intros a. cbn. ring.
Qed.

Lemma vsub_vscale_zero (v n : list R) :
  length v = length n -> vsub v (vscale 0 n) = v.
Proof.
  revert n. induction v as [| x v IH]; intros [| y n] E; try discriminate;
    [reflexivity |].
  change (vscale 0 (y :: n)) with (0 * y :: vscale 0 n).
  rewrite vsub_cons, IH by (simpl in E; lia). f_equal. ring.
Qed.

(** X18. With [eta = 1] a vector that does not point along the normal (its
    dot product with the normal is not positive) is refracted into
    itself. *)
Theorem vector_refraction_same_medium (v normal : list R) :
  length v = length normal -> dot v normal <= 0 ->
  vector_refraction v normal 1 = Ok v.
Proof.
  intros E D. rewrite (vector_refraction_value _ _ 1 E).
  cbn [nltb nsub nmul nadd nsqrt R_number of_int].
  replace (1 - 1 * 1 * (1 - dot v normal * dot v normal))
    with (Rsqr (dot v normal)) by (unfold Rsqr; ring).
  rewrite Rltb_false by apply Rle_0_sqr.
  rewrite sqrt_Rsqr_abs, Rabs_left1 by exact D.
  replace (1 * dot v normal + - dot v normal) with 0 by ring.
  now rewrite vscale_one, vsub_vscale_zero.
Qed.

Lemma vector_refraction_same_medium_witness :
  length [1; -1] = length [0; 1] /\ dot [1; -1] [0; 1] <= 0 /\
  vector_refraction [1; -1] [0; 1] 1 = Ok [1; -1].
Proof.
  assert (D : dot [1; -1] [0; 1] <= 0)
    by (rewrite !dot_cons, dot_nil_l; lra).
  split; [reflexivity |]. split; [exact D |].
  exact (@vector_refraction_same_medium [1; -1] [0; 1] eq_refl D).
Defined.

Lemma dot_combination (a c : R) (v n : list R) :
  length v = length n ->
  dot (vsub (vscale a v) (vscale c n)) (vsub (vscale a v) (vscale c n)) =
  a * a * dot v v - 2 * a * c * dot v n + c * c * dot n n.
Proof.
  revert n. induction v as [| x v IH]; intros [| y n] E; try discriminate.
  - rewrite !dot_nil_l. ring.
  - change (vscale a (x :: v)) with (a * x :: vscale a v).
    change (vscale c (y :: n)) with (c * y :: vscale c n).
    rewrite vsub_cons, !dot_cons, IH by (simpl in E; lia). ring.
Qed.

(** X19. Refraction keeps unit vectors unit: for a unit vector and a unit
    normal, whenever there is no total internal reflection ([k >= 0]) the
    refracted vector has dot product 1 with itself. *)
Theorem vector_refraction_unit (v normal : list R) (eta : R) :
  length v = length normal ->
  dot v v = 1 -> dot normal normal = 1 ->
  0 <= 1 - eta * eta * (1 - dot v normal * dot v normal) ->
  exists r,
    vector_refraction v normal eta = Ok r /\ dot_product r r = Ok 1.
Proof.
  intros E Uv Un K. rewrite (vector_refraction_value _ _ eta E).
  cbn [nltb nsub nmul nadd nsqrt R_number of_int].
  rewrite Rltb_false by exact K.
  eexists. split; [reflexivity |].
  rewrite dot_product_eq by reflexivity. f_equal.
  rewrite dot_combination by exact E. rewrite Uv, Un.
  pose proof (sqrt_sqrt _ K) as Q.
  set (q := R_sqrt.sqrt _) in *. set (d := dot v normal) in *.
  transitivity (eta * eta - eta * eta * d * d + q * q); [ring |].
  rewrite Q. ring.
Qed.

Lemma vector_refraction_unit_witness :
  length [0; -1] = length [0; 1] /\
  exists r,
    vector_refraction [0; -1] [0; 1] (1 / 2) = Ok r /\
    dot_product r r = Ok 1.
Proof.
  split; [reflexivity |].
  apply (@vector_refraction_unit [0; -1] [0; 1] (1 / 2) eq_refl);
    rewrite !dot_cons, !dot_nil_l; lra.
Defined.

End FaceForwardRefraction.

(** ** Snap, wrap and the componentwise operations over the reals *)

Section Componentwise.

Import RealArith.
Local Open Scope R_scope.

Lemma nth_map_in {A : Type} (f : A -> R) (l : list A) (i : nat) (d : A) :
  (i < length l)%nat -> nth i (map f l) 0 = f (nth i l d).
Proof.
  intros H. rewrite nth_indep with (d' := f d) by (now rewrite length_map).
  apply map_nth.
Qed.

(** X20. For an increment that is not zero snap returns, and every
    component of the result is an integer multiple of the increment that is
    no farther from the component it replaces than half the increment. *)
Theorem vector_snap_nearest_multiple (v : list R) (increment : R) :
  increment <> 0 ->
  exists r,
    vector_snap v increment = Ok r /\ length r = length v /\
    forall i, (i < length v)%nat ->
      (exists k : Z, nth i r 0 = IZR k * increment) /\
      Rabs (nth i r 0 - nth i v 0) <= Rabs increment / 2.
Proof.
  intros NZ. eexists. split; [apply vector_snap_real, NZ |].
  split; [apply length_map |]. intros i Hi.
  rewrite (nth_map_in _ v 0 Hi). set (a := nth i v 0). split.
  - eexists. reflexivity.
  - replace (IZR (Rround (a / increment)) * increment - a)
      with ((IZR (Rround (a / increment)) - a / increment) * increment)
      by (field; exact NZ).
    rewrite Rabs_mult, Rabs_minus_sym.
    pose proof (Rround_nearest (a / increment)).
    pose proof (Rabs_pos increment). nra.
Qed.

Lemma vector_snap_nearest_multiple_witness :
  (1 / 2 <> 0) /\
  exists r,
    vector_snap [3 / 4; 7] (1 / 2) = Ok r /\ length r = 2%nat /\
    Rabs (nth 0 r 0 - 3 / 4) <= Rabs (1 / 2) / 2.
Proof.
  assert (NZ : 1 / 2 <> 0) by lra.
  split; [exact NZ |].
  destruct (@vector_snap_nearest_multiple [3 / 4; 7] (1 / 2) NZ)
    as (r & Hr & Hl & Hn).
  exists r. split; [exact Hr |]. split; [exact Hl |].
  apply (Hn 0%nat). simpl. lia.
Defined.

Lemma Rround_IZR (n : Z) : Rround (IZR n) = n.
Proof.
  assert (F : 0 <= 0 < 1) by lra.
  assert (D : IZR n = IZR n + 0) by ring.
  destruct (Int_part_frac_part_spec (IZR n) n 0 F D) as [I P].
  unfold Rround. rewrite <- P, <- I.
  destruct (Rlt_dec 0 (1 / 2)); [reflexivity | lra].
Qed.

(** X21. Snapping twice with the same increment changes nothing more: a
    snapped vector is a fixed point of snap. *)
Theorem vector_snap_idempotent (v : list R) (increment : R) :
  increment <> 0 ->
  (r <- vector_snap v increment ;; vector_snap r increment) =
  vector_snap v increment.
Proof.
  intros NZ. rewrite !vector_snap_real by exact NZ. cbn [bind].
  rewrite vector_snap_real by exact NZ. f_equal.
  rewrite map_map. apply map_ext. intros a.
  replace (IZR (Rround (a / increment)) * increment / increment)
    with (IZR (Rround (a / increment))) by (field; exact NZ).
  now rewrite Rround_IZR.
Qed.

Lemma vector_snap_idempotent_witness :
  (1 / 2 <> 0) /\
  (r <- vector_snap [3 / 4; 7] (1 / 2) ;; vector_snap r (1 / 2)) =
  vector_snap [3 / 4; 7] (1 / 2).
Proof.
  assert (NZ : 1 / 2 <> 0) by lra.
  split; [exact NZ |].
  exact (@vector_snap_idempotent [3 / 4; 7] (1 / 2) NZ).
Defined.

Lemma py_max_first (a b : R) : b <= a -> py_max a b = a.
Proof.
  intros H. unfold py_max. cbn [nltb R_number]. now rewrite Rltb_false.
Qed.

Lemma py_max_second (a b : R) : a < b -> py_max a b = b.
Proof.
  intros H. unfold py_max. cbn [nltb R_number].
  now rewrite (proj2 (Rltb_lt a b) H).
Qed.

Lemma py_min_first (a b : R) : a <= b -> py_min a b = a.
Proof.
  intros H. unfold py_min. cbn [nltb R_number]. now rewrite Rltb_false.
Qed.

Lemma py_min_second (a b : R) : b < a -> py_min a b = b.
Proof.
  intros H. unfold py_min. cbn [nltb R_number].
  now rewrite (proj2 (Rltb_lt b a) H).
Qed.

Lemma clamp_idempotent (a lo hi : R) :
  clamp (clamp a lo hi) lo hi = clamp a lo hi.
Proof.
  unfold clamp.
  destruct (Rlt_le_dec a lo) as [A | A];
    [rewrite (@py_max_second a lo) by lra | rewrite (@py_max_first a lo) by lra].
  - destruct (Rlt_le_dec hi lo) as [B | B].
    + rewrite (@py_min_second lo hi) by lra.
      rewrite (@py_max_second hi lo) by lra.
      now rewrite (@py_min_second lo hi) by lra.
    + rewrite (@py_min_first lo hi) by lra.
      rewrite (@py_max_first lo lo) by lra.
      now rewrite (@py_min_first lo hi) by lra.
  - destruct (Rlt_le_dec hi a) as [B | B].
    + rewrite (@py_min_second a hi) by lra.
      destruct (Rlt_le_dec hi lo) as [C | C].
      * rewrite (@py_max_second hi lo) by lra.
        now rewrite (@py_min_second lo hi) by lra.
      * rewrite (@py_max_first hi lo) by lra.
        now rewrite (@py_min_first hi hi) by lra.
    + rewrite (@py_min_first a hi) by lra.
      rewrite (@py_max_first a lo) by lra.
      now rewrite (@py_min_first a hi) by lra.
Qed.

Lemma vclamp_cons (a l h : R) (v lo hi : list R) :
  vclamp (a :: v) (l :: lo) (h :: hi) = clamp a l h :: vclamp v lo hi.
Proof. reflexivity. Qed.

Lemma vclamp_idempotent (v lo hi : list R) :
  length v = length lo -> length v = length hi ->
  vclamp (vclamp v lo hi) lo hi = vclamp v lo hi.
Proof.
  revert lo hi. induction v as [| a v IH]; intros [| l lo] [| h hi] E1 E2;
    try discriminate; [reflexivity |].
  rewrite !vclamp_cons, clamp_idempotent, IH by (simpl in *; lia).
  reflexivity.
Qed.

(** X22. Wrapping twice between the same bounds changes nothing more,
    whatever the bounds are. *)
Theorem vector_wrap_idempotent (v min_values max_values : list R) :
  length v = length min_values -> length v = length max_values ->
  (w <- vector_wrap v min_values max_values ;;
   vector_wrap w min_values max_values) =
  vector_wrap v min_values max_values.
Proof.
  intros E1 E2. rewrite !(vector_wrap_eq _ _ _ E1 E2). cbn [bind].
  rewrite vector_wrap_eq by (rewrite vclamp_length; assumption).
  f_equal. apply vclamp_idempotent; assumption.
Qed.

Lemma vector_wrap_idempotent_witness :
  length [5; -2; 10] = length [0; 0; 0] /\
  length [5; -2; 10] = length [8; 8; 8] /\
  (w <- vector_wrap [5; -2; 10] [0; 0; 0] [8; 8; 8] ;;
   vector_wrap w [0; 0; 0] [8; 8; 8]) =
  vector_wrap [5; -2; 10] [0; 0; 0] [8; 8; 8].
Proof.
  split; [reflexivity |]. split; [reflexivity |].
  exact (@vector_wrap_idempotent [5; -2; 10] [0; 0; 0] [8; 8; 8]
           eq_refl eq_refl).
Defined.

(** X23. Wrap does not check that a lower bound is below its upper bound:
    where [min_values[i] > max_values[i]] the component of the result is
    [max_values[i]], whatever [v[i]] is. *)
Theorem vector_wrap_crossed_bounds (v min_values max_values : list R) :
  length v = length min_values -> length v = length max_values ->
  exists r,
    vector_wrap v min_values max_values = Ok r /\
    forall i, (i < length v)%nat ->
      nth i max_values 0 < nth i min_values 0 ->
      nth i r 0 = nth i max_values 0.
Proof.
  intros E1 E2. eexists. split; [apply vector_wrap_eq; assumption |].
  intros i Hi C. rewrite vclamp_nth by assumption. unfold clamp.
  destruct (Rlt_le_dec (nth i v 0) (nth i min_values 0)) as [A | A].
  - rewrite py_max_second by exact A. apply py_min_second, C.
  - rewrite py_max_first by exact A. apply py_min_second. lra.
Qed.

Lemma vector_wrap_crossed_bounds_witness :
  length [5] = length [8] /\ length [5] = length [0] /\
  exists r,
    vector_wrap [5] [8] [0] = Ok r /\ (0 < 8 -> nth 0 r 0 = 0).
Proof.
  split; [reflexivity |]. split; [reflexivity |].
  destruct (@vector_wrap_crossed_bounds [5] [8] [0] eq_refl eq_refl)
    as (r & Hr & Hc).
  exists r. split; [exact Hr |]. apply (Hc 0%nat). simpl. lia.
Defined.

Lemma min_max_sum (a b : list R) :
  vadd (zip_with py_min a b) (zip_with py_max a b) = vadd a b.
Proof.
  revert b. induction a as [| x a IH]; intros [| y b]; try reflexivity.
  change (zip_with py_min (x :: a) (y :: b))
    with (py_min x y :: zip_with py_min a b).
  change (zip_with py_max (x :: a) (y :: b))
    with (py_max x y :: zip_with py_max a b).
  rewrite !vadd_cons, IH. f_equal.
  destruct (Rlt_le_dec y x) as [A | A].
  - rewrite py_min_second, py_max_first by lra. apply Rplus_comm.
  - destruct (Rlt_le_dec x y) as [B | B].
    + rewrite py_min_first, py_max_second by lra. reflexivity.
    + rewrite py_min_first, py_max_first by lra.
      replace y with x by lra. reflexivity.
Qed.

(** X24. The componentwise minimum and maximum of two vectors add up to
    the sum of the two vectors. *)
Theorem vector_minimum_plus_maximum (a b : list R) :
  length a = length b ->
  (mn <- vector_minimum a b ;; mx <- vector_maximum a b ;;
   vector_addition mn mx) =
  vector_addition a b.
Proof.
  intros E. rewrite (vector_minimum_eq _ _ E), (vector_maximum_eq _ _ E).
  cbn [bind].
  rewrite !vector_addition_eq by (rewrite ?zip_with_length; congruence).
  f_equal. apply min_max_sum.
Qed.

Lemma vector_minimum_plus_maximum_witness :
  length [1; 5] = length [3; 2] /\
  (mn <- vector_minimum [1; 5] [3; 2] ;; mx <- vector_maximum [1; 5] [3; 2] ;;
   vector_addition mn mx) =
  vector_addition [1; 5] [3; 2].
Proof.
  split; [reflexivity |].
  exact (@vector_minimum_plus_maximum [1; 5] [3; 2] eq_refl).
Defined.

End Componentwise.

(** ** Rounding, scaling and bounds over the reals *)

Section RoundingScaling.

Import RealArith.
Local Open Scope R_scope.

Lemma nth_map_Z {A : Type} (f : A -> Z) (l : list A) (i : nat) (d : A) :
  (i < length l)%nat -> nth i (map f l) 0%Z = f (nth i l d).
Proof.
  intros H. rewrite nth_indep with (d' := f d) by (now rewrite length_map).
  apply map_nth.
Qed.

(** X25. Floor and ceiling bracket every component: the floor is at most
    the component, the ceiling at least, and the two integers differ by at
    most one. *)
Theorem vector_floor_ceil_bracket (v : list R) :
  exists f c,
    vector_floor v = Ok f /\ vector_ceil v = Ok c /\
    forall i, (i < length v)%nat ->
      IZR (nth i f 0%Z) <= nth i v 0 <= IZR (nth i c 0%Z) /\
      (nth i c 0%Z - nth i f 0%Z <= 1)%Z.
Proof.
  destruct (real_componentwise_total v) as (Hf & Hc & _).
  exists (map Rfloor v), (map Rceil v).
  split; [exact Hf |]. split; [exact Hc |]. intros i Hi.
  rewrite (nth_map_Z Rfloor v 0 Hi), (nth_map_Z Rceil v 0 Hi).
  pose proof (Rfloor_spec (nth i v 0)) as F.
  pose proof (Rceil_spec (nth i v 0)) as C.
  split; [lra |].
  apply Z.lt_succ_r, lt_IZR. rewrite succ_IZR, minus_IZR. lra.
Qed.

(** X26. Scaling by [s] and then by [t] is scaling by [t * s], and scaling
    by 1 returns the vector. *)
Theorem scalar_multiplication_composes (v : list R) (s t : R) :
  (sv <- scalar_multiplication v s ;; scalar_multiplication sv t) =
  scalar_multiplication v (t * s) /\
  scalar_multiplication v 1 = Ok v.
Proof.
  rewrite !scalar_multiplication_eq. cbn [bind].
  rewrite scalar_multiplication_eq. split; f_equal.
  - apply vscale_vscale.
  - apply vscale_one.
Qed.

Lemma vadd_vscale_opp (a b : list R) :
  vadd a (vscale (-1) b) = vsub a b.
Proof.
  revert b. induction a as [| x a IH]; intros [| y b]; try reflexivity.
  change (vscale (-1) (y :: b)) with (-1 * y :: vscale (-1) b).
  rewrite vadd_cons, vsub_cons, IH. f_equal. ring.
Qed.

(** X27. Subtracting a vector is adding its multiple by -1, for all
    operands: with lengths that differ both sides raise the dimension
    error. *)
Theorem vector_subtraction_by_addition (a b : list R) :
  vector_subtraction a b =
  (nb <- scalar_multiplication b (-1) ;; vector_addition a nb).
Proof.
  rewrite scalar_multiplication_eq. cbn [bind].
  destruct (len_ne a b) eqn:L.
  - unfold vector_subtraction, vector_addition.
    unfold len_ne in *. rewrite vscale_length, L. reflexivity.
  - apply len_ne_inv in L.
    rewrite vector_subtraction_eq by exact L.
    rewrite vector_addition_eq by (rewrite vscale_length; exact L).
    f_equal. symmetry. apply vadd_vscale_opp.
Qed.

Lemma dot_abs (v : list R) : dot (map Rabs v) (map Rabs v) = dot v v.
Proof.
  induction v as [| x v IH]; [reflexivity |].
  cbn [map]. rewrite !dot_cons, IH. f_equal.
  rewrite <- Rabs_mult. apply Rabs_pos_eq. nra.
Qed.

(** X28. Taking absolute values twice is taking them once, and it does not
    change the length of the vector. *)
Theorem vector_absolute_idempotent (v : list R) :
  (a <- vector_absolute v ;; vector_absolute a) = vector_absolute v /\
  (a <- vector_absolute v ;; vector_length a) = vector_length v.
Proof.
  rewrite !vector_absolute_eq. cbn [bind].
  rewrite vector_absolute_eq, !vector_length_eq. split; f_equal.
  - rewrite map_map. apply map_ext. intros a. apply Rabs_Rabsolu.
  - f_equal. apply (dot_abs v).
Qed.

Lemma dot_zero_r (a b : list R) :
  Forall (fun x => x = 0) b -> dot a b = 0.
Proof.
  intros F. revert a. induction F as [| y b Hy _ IH]; intros [| x a];
    rewrite ?dot_nil_l, ?dot_nil_r; try reflexivity.
  rewrite dot_cons, IH, Hy. ring.
Qed.

Lemma dot_square_bound (a b : list R) :
  length a = length b -> dot a b * dot a b <= dot a a * dot b b.
Proof.
  intros E. destruct (Req_dec_T (dot b b) 0) as [Z | NZ].
  - rewrite (dot_zero_r a (proj1 (dot_self_zero b) Z)), Z. lra.
  - pose proof (dot_self_nonneg b) as Pb.
    pose proof (dot_self_nonneg (vsub a (vscale (dot a b / dot b b) b))) as P.
    rewrite dot_reflected in P by exact E.
    assert (Q : dot a a - 2 * (dot a b / dot b b) * dot a b +
                dot a b / dot b b * (dot a b / dot b b) * dot b b =
                (dot a a * dot b b - dot a b * dot a b) / dot b b)
      by (field; exact NZ).
    rewrite Q in P. clear Q.
    assert (0 < dot b b) as Pos by lra.
    apply Rmult_le_compat_r with (r := dot b b) in P; [| lra].
    unfold Rdiv in P. rewrite Rmult_assoc, Rinv_l in P by exact NZ. lra.
Qed.

(** X29. The dot product of two vectors of one length is bounded, in
    absolute value, by the product of their lengths. *)
Theorem dot_product_bounded_by_lengths (a b : list R) :
  length a = length b ->
  exists d la lb,
    dot_product a b = Ok d /\ vector_length a = Ok la /\
    vector_length b = Ok lb /\ Rabs d <= la * lb.
Proof.
  intros E. do 3 eexists.
  split; [apply dot_product_eq, E |].
  split; [apply vector_length_eq |]. split; [apply vector_length_eq |].
  rewrite <- sqrt_mult_alt by apply dot_self_nonneg.
  rewrite <- sqrt_Rsqr_abs. apply sqrt_le_1_alt. unfold Rsqr.
  apply dot_square_bound, E.
Qed.

Lemma dot_product_bounded_by_lengths_witness :
  length [1; 2] = length [3; 4] /\
  exists d la lb,
    dot_product [1; 2] [3; 4] = Ok d /\ vector_length [1; 2] = Ok la /\
    vector_length [3; 4] = Ok lb /\ Rabs d <= la * lb.
Proof.
  split; [reflexivity |].
  exact (@dot_product_bounded_by_lengths [1; 2] [3; 4] eq_refl).
Defined.

End RoundingScaling.

(** ** Further properties at concrete operands *)

Section FurtherInstances.

Import FloatArith RealArith.

Lemma vector_wrap_is_maximum_then_minimum_witness :
  (length [5; -2; 10] = length [0; 0; 0] /\
   length [5; -2; 10] = length [8; 8; 8] /\
   vector_wrap [5; -2; 10] [0; 0; 0] [8; 8; 8] =
   (m <- vector_maximum [5; -2; 10] [0; 0; 0] ;;
    vector_minimum m [8; 8; 8]))%float.
Proof.
  split; [reflexivity |]. split; [reflexivity |].
  exact (@vector_wrap_is_maximum_then_minimum float float_number
           [5; -2; 10]%float [0; 0; 0]%float [8; 8; 8]%float
           eq_refl eq_refl).
Defined.

Lemma index_never_out_of_range_witness :
  (vector_projection [1; 2] [0; 0] <> Raise IndexError /\
   cross_product [1; 2] [3; 4; 5] <> Raise IndexError /\
   vector_wrap [1; 2] [0] [3; 4; 5] <> Raise IndexError /\
   vector_snap [1; 2] 0 <> Raise IndexError)%R.
Proof.
  destruct (@index_never_out_of_range R R_number R_trig
              ltac:(intros x; discriminate) ltac:(intros x; discriminate)
              ltac:(intros x; discriminate) ltac:(intros x; discriminate)
              ltac:(intros x; discriminate) ltac:(intros x; discriminate)
              ltac:(intros x; discriminate))
    as (H2 & H3 & H1).
  split; [apply (H2 [1; 2]%R [0; 0]%R) |].
  split; [apply (H2 [1; 2]%R [3; 4; 5]%R) |].
  split; [apply (H3 [1; 2]%R [0]%R [3; 4; 5]%R 0%R) |].
  apply (H1 [1; 2]%R 0%R).
Defined.

End FurtherInstances.
